(** * Nord Pool price merge: a shallow embedding of
      [custom_components/nordpool/aio_price.py]

    The development follows the source file top to bottom:
    - Python exceptions and a small error monad;
    - floats as the code sees them (only parsing and the test against
      [float("inf")] matter) and [AioPrices._conv_to_float];
    - insertion-ordered dictionaries, price records, area dictionaries, pages;
    - the zone registry [tzs];
    - [join_result_for_correct_time], with the in-place mutation of its input
      made explicit by state passing;
    - [AioPrices.fetch] and its helpers over already fetched pages. *)

From Stdlib Require Import ZArith NArith String Ascii List Bool Lia Sorted.
From stdpp Require Import base option list gmap strings.
Import ListNotations.

Local Open Scope string_scope.
Local Open Scope list_scope.
Local Open Scope Z_scope.

(** ** Exceptions and results *)

(** The exception classes that the modelled code can raise or that the retry
    decorator of [fetch] names. *)
Inductive exn : Type :=
  | InvalidValueException   (* class InvalidValueException(ValueError) *)
  | ValueError
  | KeyError
  | AttributeError
  | ClientError.            (* aiohttp.ClientError *)

(** [issubclass e c] for the classes above: the only proper subclass relation is
    [InvalidValueException < ValueError]. *)
Definition exn_subclass (e c : exn) : bool :=
  match e, c with
  | InvalidValueException, InvalidValueException
  | InvalidValueException, ValueError
  | ValueError, ValueError
  | KeyError, KeyError
  | AttributeError, AttributeError
  | ClientError, ClientError => true
  | _, _ => false
  end.

Inductive result (A : Type) : Type :=
  | Ok (a : A)
  | Raise (e : exn).
Arguments Ok {A} a.
Arguments Raise {A} e.

Definition bind {A B} (r : result A) (k : A -> result B) : result B :=
  match r with
  | Ok a => k a
  | Raise e => Raise e
  end.

Notation "'do' x <- r ; k" := (bind r (fun x => k))
  (at level 10, x name, r at level 100, k at level 200).

(** [try: r except c: h] *)
Definition try_except {A} (r : result A) (c : exn) (h : result A) : result A :=
  match r with
  | Ok a => Ok a
  | Raise e => if exn_subclass e c then h else Raise e
  end.

(** ** Floats

    A Python float is kept by what it denotes: a NaN, an infinity, or the
    double nearest to the decimal [(-1)^neg * m * 10^e].  The code only parses
    floats and compares them with [float("inf")], so no arithmetic is needed. *)
Inductive pyfloat : Type :=
  | FNaN
  | FInf (neg : bool)
  | FNear (neg : bool) (m : N) (e : Z).

(** Round-to-nearest-even sends a decimal to an infinity exactly when its
    magnitude reaches [2^1024 - 2^970], half an ulp above the largest double. *)
Definition overflow_threshold : Z := 2 ^ 1024 - 2 ^ 970.

Definition decimal_overflows (m : N) (e : Z) : bool :=
  if 0 <=? e then overflow_threshold <=? Z.of_N m * 10 ^ e
  else overflow_threshold * 10 ^ (- e) <=? Z.of_N m.

(** [f == float("inf")] *)
Definition is_pos_inf (f : pyfloat) : bool :=
  match f with
  | FNaN => false
  | FInf neg => negb neg
  | FNear neg m e => negb neg && decimal_overflows m e
  end.

Definition pos_inf : pyfloat := FInf false.

(** *** Text

    A Python [str] is kept as the bytes of its UTF-8 encoding.  The two
    calls of [str.replace] in the code look for a one-byte character, and
    such a byte occurs in UTF-8 text only as that character, so they can
    work byte by byte.  [float] looks at code points, which [utf8_decode]
    gives back; bytes that are not UTF-8 text stand for no Python string. *)
Definition continuation (c : ascii) : option N :=
  let n := N_of_ascii c in
  if ((128 <=? n) && (n <? 192))%N then Some (n - 128)%N else None.

Fixpoint utf8_decode (l : list ascii) : option (list N) :=
  match l with
  | [] => Some []
  | b1 :: r1 =>
      let n1 := N_of_ascii b1 in
      if (n1 <? 128)%N then option_map (cons n1) (utf8_decode r1)
      else
        match r1 with
        | [] => None
        | b2 :: r2 =>
            match continuation b2 with
            | None => None
            | Some n2 =>
                if (n1 <? 224)%N then
                  if (194 <=? n1)%N then
                    option_map (cons ((n1 - 192) * 64 + n2)%N)
                      (utf8_decode r2)
                  else None
                else
                  match r2 with
                  | [] => None
                  | b3 :: r3 =>
                      match continuation b3 with
                      | None => None
                      | Some n3 =>
                          if (n1 <? 240)%N then
                            let cp :=
                              ((n1 - 224) * 4096 + n2 * 64 + n3)%N in
                            if ((2048 <=? cp)
                                && negb ((55296 <=? cp) && (cp <? 57344)))%N
                            then option_map (cons cp) (utf8_decode r3)
                            else None
                          else
                            match r3 with
                            | [] => None
                            | b4 :: r4 =>
                                match continuation b4 with
                                | None => None
                                | Some n4 =>
                                    let cp :=
                                      ((n1 - 240) * 262144 + n2 * 4096
                                       + n3 * 64 + n4)%N in
                                    if ((n1 <? 248) && (65536 <=? cp)
                                        && (cp <? 1114112))%N
                                    then option_map (cons cp)
                                           (utf8_decode r4)
                                    else None
                                end
                            end
                      end
                  end
            end
        end
  end.

(** [Py_UNICODE_ISSPACE] and [Py_UNICODE_TODECIMAL], with the character
    database of CPython 3.11 (Unicode 14.0).  The decimal digits come in
    runs of ten, zero to nine; [decimal_zeros] lists the zeros. *)
Definition Py_UNICODE_ISSPACE (cp : N) : bool :=
  (((0x9 <=? cp) && (cp <=? 0xd)) || ((0x1c <=? cp) && (cp <=? 0x20))
   || ((0x2000 <=? cp) && (cp <=? 0x200a))
   || existsb (N.eqb cp)
        [0x85; 0xa0; 0x1680; 0x2028; 0x2029; 0x202f; 0x205f; 0x3000])%N.

Definition decimal_zeros : list N :=
  [
   0x30; 0x660; 0x6f0; 0x7c0; 0x966; 0x9e6;
   0xa66; 0xae6; 0xb66; 0xbe6; 0xc66; 0xce6;
   0xd66; 0xde6; 0xe50; 0xed0; 0xf20; 0x1040;
   0x1090; 0x17e0; 0x1810; 0x1946; 0x19d0; 0x1a80;
   0x1a90; 0x1b50; 0x1bb0; 0x1c40; 0x1c50; 0xa620;
   0xa8d0; 0xa900; 0xa9d0; 0xa9f0; 0xaa50; 0xabf0;
   0xff10; 0x104a0; 0x10d30; 0x11066; 0x110f0; 0x11136;
   0x111d0; 0x112f0; 0x11450; 0x114d0; 0x11650; 0x116c0;
   0x11730; 0x118e0; 0x11950; 0x11c50; 0x11d50; 0x11da0;
   0x16a60; 0x16ac0; 0x16b50; 0x1d7ce; 0x1d7d8; 0x1d7e2;
   0x1d7ec; 0x1d7f6; 0x1e140; 0x1e2f0; 0x1e950; 0x1fbf0
  ]%N.

Definition Py_UNICODE_TODECIMAL (cp : N) : option N :=
  match List.find (fun z => ((z <=? cp) && (cp <? z + 10))%N)
          decimal_zeros with
  | Some z => Some (cp - z)%N
  | None => None
  end.

(** [_PyUnicode_TransformDecimalAndSpaceToASCII], through which [float]
    passes a string: an ASCII string is used as it is; in another string a
    code point below 127 is kept, white space becomes a space and a decimal
    digit its ASCII digit.  At any other code point CPython writes ["?"] and
    cuts the text there, on which the parser below always fails; that case
    is [None] here. *)
Definition PyUnicode_IS_ASCII (l : list ascii) : bool :=
  forallb (fun c => (N_of_ascii c <? 128)%N) l.

Definition transform_char (cp : N) : option ascii :=
  if (cp <? 127)%N then Some (ascii_of_N cp)
  else if Py_UNICODE_ISSPACE cp then Some " "%char
  else option_map (fun d => ascii_of_N (48 + d)) (Py_UNICODE_TODECIMAL cp).

Definition _PyUnicode_TransformDecimalAndSpaceToASCII (l : list ascii)
  : option (list ascii) :=
  if PyUnicode_IS_ASCII l then Some l
  else
    match utf8_decode l with
    | Some cps => mapM transform_char cps
    | None => None
    end.

(** *** [float(str)]

    CPython brings the string to ASCII as above, strips white space at both
    ends, checks and removes underscores (allowed only between two digits),
    then reads
    [[sign] (digits [. digits] [exponent] | inf | infinity | nan)] and demands
    that the whole string was consumed; anything else is a [ValueError]. *)

(** [Py_ISSPACE]: tab, line feed, vertical tab, form feed, carriage return
    and space. *)
Definition is_space (c : ascii) : bool :=
  let n := nat_of_ascii c in
  ((9 <=? n)%nat && (n <=? 13)%nat) || (n =? 32)%nat.

Definition is_digit (c : ascii) : bool :=
  let n := nat_of_ascii c in (48 <=? n)%nat && (n <=? 57)%nat.

Definition digit_val (c : ascii) : N := N.of_nat (nat_of_ascii c - 48).

Fixpoint lstrip (l : list ascii) : list ascii :=
  match l with
  | c :: r => if is_space c then lstrip r else l
  | [] => []
  end.

Definition strip (l : list ascii) : list ascii :=
  rev (lstrip (rev (lstrip l))).

Definition is_underscore (c : ascii) : bool := Ascii.eqb c "_".

(** The underscore pass of [_Py_string_to_number_with_underscores]; [prev] is
    the previous character, [None] at the start. *)
Fixpoint remove_underscores (prev : option ascii) (l : list ascii)
  : option (list ascii) :=
  match l with
  | [] =>
      match prev with
      | Some p => if is_underscore p then None else Some []
      | None => Some []
      end
  | c :: r =>
      if is_underscore c then
        match prev with
        | Some p => if is_digit p then remove_underscores (Some c) r else None
        | None => None
        end
      else
        match prev with
        | Some p =>
            if is_underscore p && negb (is_digit c) then None
            else option_map (cons c) (remove_underscores (Some c) r)
        | None => option_map (cons c) (remove_underscores (Some c) r)
        end
  end.

Fixpoint span_digits (l : list ascii) : list ascii * list ascii :=
  match l with
  | c :: r =>
      if is_digit c then let '(d, rest) := span_digits r in (c :: d, rest)
      else ([], l)
  | [] => ([], [])
  end.

Definition digits_value (d : list ascii) : N :=
  fold_left (fun acc c => (10 * acc + digit_val c)%N) d 0%N.

Definition lower (c : ascii) : ascii :=
  let n := nat_of_ascii c in
  if (65 <=? n)%nat && (n <=? 90)%nat then ascii_of_nat (n + 32) else c.

Definition split_sign (l : list ascii) : bool * list ascii :=
  match l with
  | c :: r =>
      if Ascii.eqb c "-" then (true, r)
      else if Ascii.eqb c "+" then (false, r)
      else (false, l)
  | [] => (false, [])
  end.

(** The optional exponent; the result is [None] when the tail is not an
    exponent followed by the end of the string. *)
Definition parse_exponent (l : list ascii) : option Z :=
  match l with
  | [] => Some 0
  | c :: r =>
      if Ascii.eqb (lower c) "e" then
        let '(neg, r1) := split_sign r in
        let '(d, rest) := span_digits r1 in
        match d, rest with
        | _ :: _, [] =>
            let v := Z.of_N (digits_value d) in
            Some (if neg then - v else v)
        | _, _ => None
        end
      else None
  end.

Definition mk_float (neg : bool) (m : N) (e : Z) : pyfloat :=
  if decimal_overflows m e then FInf neg else FNear neg m e.

Definition parse_number (neg : bool) (l : list ascii) : option pyfloat :=
  let '(ip, r1) := span_digits l in
  let '(fp, r2) :=
    match r1 with
    | c :: r => if Ascii.eqb c "." then span_digits r else ([], r1)
    | [] => ([], [])
    end in
  match ip ++ fp with
  | [] => None
  | _ :: _ =>
      match parse_exponent r2 with
      | Some ex =>
          Some (mk_float neg (digits_value (ip ++ fp))
                  (ex - Z.of_nat (length fp)))
      | None => None
      end
  end.

Definition parse_inf_or_nan (neg : bool) (l : list ascii) : option pyfloat :=
  let w := string_of_list_ascii (map lower l) in
  if String.eqb w "inf" || String.eqb w "infinity" then Some (FInf neg)
  else if String.eqb w "nan" then Some FNaN
  else None.

Definition py_float (s : string) : result pyfloat :=
  match _PyUnicode_TransformDecimalAndSpaceToASCII
          (list_ascii_of_string s) with
  | None => Raise ValueError
  | Some text =>
      match remove_underscores None (strip text) with
      | None => Raise ValueError
      | Some l =>
          let '(neg, body) := split_sign l in
          match parse_number neg body with
          | Some f => Ok f
          | None =>
              match parse_inf_or_nan neg body with
              | Some f => Ok f
              | None => Raise ValueError
              end
          end
      end
  end.

(** [s.replace(old, new)] for a one-character [old]. *)
Fixpoint str_replace (old : ascii) (new : string) (s : string) : string :=
  match s with
  | EmptyString => EmptyString
  | String c r =>
      if Ascii.eqb c old then (new ++ str_replace old new r)%string
      else String c (str_replace old new r)
  end.

(** [AioPrices._conv_to_float]:
    "Convert numbers to float. Return infinity, if conversion fails." *)
Definition _conv_to_float (s : string) : result pyfloat :=
  try_except
    (py_float (str_replace " " "" (str_replace "," "." s)))
    ValueError
    (Ok pos_inf).

(** ** Data model *)

(** A metadata value of an area: a float or [None]. *)
Definition pyval : Type := option pyfloat.

(** [INVALID_VALUES = frozenset((None, float("inf")))] and the test
    [v in INVALID_VALUES]. *)
Definition in_INVALID_VALUES (v : pyval) : bool :=
  match v with
  | None => true
  | Some f => is_pos_inf f
  end.

(** Instants are microseconds since the epoch, in UTC.  One element of an area's
    ["values"] list, the dictionary [{"start": .., "end": .., "value": ..}]. *)
Record price : Type := mkPrice {
  val_start : Z;
  val_end : Z;
  val_value : pyval
}.

(** An area dictionary.  The key ["values"] holds the list of records and is
    absent ([None]) once popped; the other keys (["Min"], ["Peak"], ...) are the
    metadata, whose order the code never looks at. *)
Record area : Type := mkArea {
  meta : gmap string pyval;
  values : option (list price)
}.

(** Insertion-ordered dictionaries keyed by area name. *)
Definition odict (V : Type) : Type := list (string * V).

Fixpoint od_get {V} (k : string) (d : odict V) : option V :=
  match d with
  | [] => None
  | (k', v) :: r => if String.eqb k k' then Some v else od_get k r
  end.

(** [d[k] = v]: an existing key keeps its place, a new key goes last. *)
Fixpoint od_set {V} (k : string) (v : V) (d : odict V) : odict V :=
  match d with
  | [] => [(k, v)]
  | (k', v') :: r =>
      if String.eqb k k' then (k, v) :: r else (k', v') :: od_set k v r
  end.

Definition od_keys {V} (d : odict V) : list string := map fst d.

(** A parsed page: ["areas"] may be missing ([day_.get("areas", {})]); the other
    keys (start, end, updated, currency) are never read by the merge. *)
Record page : Type := mkPage {
  page_header : list (string * string);
  page_areas : option (odict area)
}.

(** The reference argument [dt] / [end_date]: absent, a datetime (given by its
    instant; Python reads a naive one in the zone of the system), or one of
    the other types the public API lets through, a date or a string, neither of
    which has [astimezone].  Instants are not bounded to the years 1 to 9999
    of [datetime]. *)
Inductive pydt : Type :=
  | DtNone
  | DtDatetime (utc : Z)
  | DtDate (ordinal : Z)
  | DtStr (s : string).

(** ** The zone registry *)

Definition tzs : gmap string string :=
  list_to_map
    [ ("DK1", "Europe/Copenhagen"); ("DK2", "Europe/Copenhagen");
      ("FI", "Europe/Helsinki"); ("EE", "Europe/Tallinn");
      ("LT", "Europe/Vilnius"); ("LV", "Europe/Riga");
      ("Oslo", "Europe/Oslo"); ("Kr.sand", "Europe/Oslo");
      ("Bergen", "Europe/Oslo"); ("Molde", "Europe/Oslo");
      ("Tr.heim", "Europe/Oslo"); ("Tromsø", "Europe/Oslo");
      ("SE1", "Europe/Stockholm"); ("SE2", "Europe/Stockholm");
      ("SE3", "Europe/Stockholm"); ("SE4", "Europe/Stockholm");
      ("SYS", "Europe/Stockholm"); ("FR", "Europe/Paris");
      ("NL", "Europe/Amsterdam"); ("BE", "Europe/Brussels");
      ("AT", "Europe/Vienna"); ("DE-LU", "Europe/Berlin") ].

Arguments tzs : simpl never.

(** [backoff.on_exception(backoff.expo, (aiohttp.ClientError, KeyError), ...)]:
    the exceptions after which the decorator calls [fetch] again. *)
Definition backoff_retries (e : exn) : bool :=
  exn_subclass e ClientError || exn_subclass e KeyError.

(** ** The merge *)

Definition DAY : Z := 86400000000.

Section Merge.

(** The zone database behind [tz.gettz]: the UTC offset, in microseconds, of
    a named zone at a UTC instant. *)
Variable utcoffset : string -> Z -> Z.

(** The keys that [add_junk] stamps and the placeholder it writes; the spec
    names neither. *)
Variable junk_keys : list string.
Variable junk_value : pyval.

(** Modelled from the spec: [add_junk] is imported from [misc.py], which is
    not among the sources.  It "stamps derived junk/placeholder peak-period
    fields" on the area dictionary it is given, in place, and returns that
    same dictionary. *)
Definition add_junk (d : gmap string pyval) : gmap string pyval :=
  fold_left (fun acc k => <[k := junk_value]> acc) junk_keys d.

(** [t.astimezone(zone)], as the wall-clock reading in [zone]: microseconds
    since 1970-01-01T00:00:00 on that clock.  All datetimes compared below
    carry the same [tzinfo] object, so Python compares these readings and
    ignores offsets and [fold]. *)
Definition astimezone (zone : string) (t : Z) : Z := t + utcoffset zone t.

(** [w.replace(hour=.., minute=.., second=.., microsecond=..)] with the time
    of day given in microseconds. *)
Definition replace_time (w : Z) (time_of_day : Z) : Z :=
  w - w mod DAY + time_of_day.

(** [utc.astimezone(zone)] on the reference argument. *)
Definition dt_astimezone (dt : pydt) (zone : string) : result Z :=
  match dt with
  | DtDatetime utc => Ok (astimezone zone utc)
  | DtNone | DtDate _ | DtStr _ => Raise AttributeError
  end.

(** [d.update(value)] on area dictionaries. *)
Definition area_update (d value : area) : area :=
  {| meta := meta value ∪ meta d;
     values := match values value with
               | Some l => Some l
               | None => values d
               end |}.

Definition empty_area : area := {| meta := ∅; values := None |}.

(** The loop [for val in values]; [out] is the list object
    [fin["areas"][key]["values"]]. *)
Fixpoint select_values (zone : string) (start_of_day end_of_day : Z)
    (vals : list price) (out : list price) : result (list price) :=
  match vals with
  | [] => Ok out
  | val :: rest =>
      let local := astimezone zone (val_start val) in
      let local_end := astimezone zone (val_end val) in
      if (start_of_day <=? local) && (local <=? end_of_day) then
        if in_INVALID_VALUES (val_value val) then
          Raise InvalidValueException
        else if local =? local_end then
          select_values zone start_of_day end_of_day rest out
        else
          select_values zone start_of_day end_of_day rest (out ++ [val])
      else
        select_values zone start_of_day end_of_day rest out
  end.

(** The tests of the inner loop on one record: its local start lies between
    the two bounds; it is in range with an invalid value; it is in range with
    distinct local start and end. *)
Definition in_range (zone : string) (sod eod : Z) (val : price) : bool :=
  (sod <=? astimezone zone (val_start val))
  && (astimezone zone (val_start val) <=? eod).

Definition is_bad (zone : string) (sod eod : Z) (val : price) : bool :=
  in_range zone sod eod val && in_INVALID_VALUES (val_value val).

Definition is_kept (zone : string) (sod eod : Z) (val : price) : bool :=
  in_range zone sod eod val
  && negb (astimezone zone (val_start val) =? astimezone zone (val_end val)).

(** [fin = defaultdict(dict)] only ever gets the key ["areas"]: [None] is
    the empty [fin], [Some a] is [{"areas": a}]. *)
Definition fin_t : Type := option (odict area).

(** The body of [for key, value in day_.get("areas", {}).items()].  It
    returns the area dictionary as the body leaves it ([value] and
    [day_["areas"][key]] are one object) and the new [fin] or the exception
    raised. *)
Definition merge_area (dt : pydt) (key : string) (value : area)
    (fin : fin_t) : area * result fin_t :=
  match tzs !! key with
  | None => (value, Ok fin)
  | Some zone =>
      (* value = add_junk(value) *)
      let value := {| meta := add_junk (meta value);
                      values := values value |} in
      (* values = day_["areas"][key].pop("values") *)
      match values value with
      | None => (value, Raise KeyError)
      | Some vals =>
          let value := {| meta := meta value; values := None |} in
          (value,
           (* fin["areas"], created on first use *)
           let fa := default [] fin in
           (* if key not in fin["areas"]: fin["areas"][key] = {} *)
           let cur := default empty_area (od_get key fa) in
           (* fin["areas"][key].update(value) *)
           let cur := area_update cur value in
           (* if "values" not in fin["areas"][key]: ... = [] *)
           let out := default [] (values cur) in
           do w <- dt_astimezone dt zone;
           let start_of_day := replace_time w 0 in
           let end_of_day := replace_time w (DAY - 1) in
           do out <- select_values zone start_of_day end_of_day vals out;
           Ok (Some (od_set key {| meta := meta cur; values := Some out |}
                       fa)))
      end
  end.

(** The loop over the areas of one page. *)
Fixpoint merge_areas (dt : pydt) (items : odict area) (fin : fin_t)
    : odict area * result fin_t :=
  match items with
  | [] => ([], Ok fin)
  | (key, value) :: rest =>
      match merge_area dt key value fin with
      | (value', Ok fin') =>
          let '(rest', r) := merge_areas dt rest fin' in
          ((key, value') :: rest', r)
      | (value', Raise e) => ((key, value') :: rest, Raise e)
      end
  end.

Definition merge_page (dt : pydt) (day_ : page) (fin : fin_t)
    : page * result fin_t :=
  match page_areas day_ with
  | None => (day_, Ok fin)
  | Some items =>
      let '(items', r) := merge_areas dt items fin in
      ({| page_header := page_header day_; page_areas := Some items' |}, r)
  end.

(** The loop [for day_ in results]. *)
Fixpoint merge_pages (dt : pydt) (results : list page) (fin : fin_t)
    : list page * result fin_t :=
  match results with
  | [] => ([], Ok fin)
  | day_ :: rest =>
      match merge_page dt day_ fin with
      | (day', Ok fin') =>
          let '(rest', r) := merge_pages dt rest fin' in
          (day' :: rest', r)
      | (day', Raise e) => (day' :: rest, Raise e)
      end
  end.

(** [join_result_for_correct_time(results, dt)]: the pages as the call
    leaves them, and [fin] or the exception. *)
Definition join_result_for_correct_time (results : list page) (dt : pydt)
    : list page * result fin_t :=
  merge_pages dt results None.

(** [AioPrices.fetch(data_type, end_date, areas)] after the three requests
    have been answered and parsed: [yesterday], [today] and [tomorrow] are
    the elements of [raw]. *)
Definition fetch (yesterday today tomorrow : page) (end_date : pydt)
    : list page * result fin_t :=
  join_result_for_correct_time [yesterday; today; tomorrow] end_date.

(** [hourly], [daily], [weekly], [monthly] and [yearly] call [fetch] with
    their own page index, which only decides what the three requests ask
    for. *)
Definition hourly := fetch.
Definition daily := fetch.
Definition weekly := fetch.
Definition monthly := fetch.
Definition yearly := fetch.

(** *** Notions used to state the properties of the merge *)

(** What [fin] holds for an area: its dictionary (empty when the area is not
    there yet), its values list and its metadata. *)
Definition fin_area (fin : fin_t) (key : string) : area :=
  default empty_area (od_get key (default [] fin)).

Definition fin_values (fin : fin_t) (key : string) : list price :=
  default [] (values (fin_area fin key)).

Definition fin_meta (fin : fin_t) (key : string) : gmap string pyval :=
  meta (fin_area fin key).

(** The bounds of the local day of [utc] in [zone], as the body computes
    them. *)
Definition start_of_day (zone : string) (utc : Z) : Z :=
  replace_time (astimezone zone utc) 0.

Definition end_of_day (zone : string) (utc : Z) : Z :=
  replace_time (astimezone zone utc) (DAY - 1).

(** An area dictionary after the body has run on it for a known zone. *)
Definition mutated (value : area) : area :=
  {| meta := add_junk (meta value); values := None |}.

(** A record that may sit in the output list of area [key] for the
    reference [dt]: the zone of [key] is known, [dt] is a datetime, and the
    record passed the tests of the inner loop for that zone and day. *)
Definition record_ok (dt : pydt) (key : string) (val : price) : Prop :=
  exists zone utc,
    tzs !! key = Some zone /\ dt = DtDatetime utc /\
    is_kept zone (start_of_day zone utc) (end_of_day zone utc) val = true.

Definition fin_ok (dt : pydt) (fin : fin_t) : Prop :=
  forall key a vs val,
    In (key, a) (default [] fin) -> values a = Some vs -> In val vs ->
    record_ok dt key val.

(** The records of a list that the inner loop keeps for [zone] on the local
    day of [utc]. *)
Definition kept_values (zone : string) (utc : Z) (vals : list price)
    : list price :=
  List.filter (is_kept zone (start_of_day zone utc) (end_of_day zone utc))
    vals.

(** What a page holds for an area: its dictionary if any, and from it the
    values list and the metadata as [add_junk] leaves it. *)
Definition page_area (day_ : page) (key : string) : option area :=
  od_get key (default [] (page_areas day_)).

Definition values_of (o : option area) : list price :=
  match o with
  | Some a => default [] (values a)
  | None => []
  end.

Definition stamped_meta_of (o : option area) : gmap string pyval :=
  match o with
  | Some a => add_junk (meta a)
  | None => ∅
  end.

(** A page is a dictionary: no area name occurs twice. *)
Definition page_wf (day_ : page) : Prop :=
  NoDup (od_keys (default [] (page_areas day_))).

(** A raw page as the parser hands it over: every area of the registry
    still has its ["values"] key. *)
Definition page_fresh (day_ : page) : Prop :=
  forall key a,
    In (key, a) (default [] (page_areas day_)) ->
    is_Some (tzs !! key) -> is_Some (values a).

(** An area whose list has, for the local day of [utc], a record in range
    with an invalid value; a page with such an area. *)
Definition area_is_bad (utc : Z) (item : string * area) : bool :=
  match tzs !! item.1, values item.2 with
  | Some zone, Some vals =>
      existsb (is_bad zone (start_of_day zone utc) (end_of_day zone utc)) vals
  | _, _ => false
  end.

Definition page_is_bad (utc : Z) (day_ : page) : bool :=
  existsb (area_is_bad utc) (default [] (page_areas day_)).

(** The state in which a completed pass leaves an entry of a page and a
    page: areas of the registry are stamped and have lost ["values"], the
    others are untouched. *)
Definition mutated_entry (item : string * area) : string * area :=
  match tzs !! item.1 with
  | Some _ => (item.1, mutated item.2)
  | None => item
  end.

Definition mutated_page (day_ : page) : page :=
  {| page_header := page_header day_;
     page_areas := option_map (map mutated_entry) (page_areas day_) |}.

End Merge.

(** A page without one area. *)
Definition page_without (key : string) (day_ : page) : page :=
  {| page_header := page_header day_;
     page_areas :=
       option_map (List.filter (fun item => negb (String.eqb item.1 key)))
         (page_areas day_) |}.

(** An area with another list under ["values"], and a page with other
    areas. *)
Definition area_with_values (a : area) (vals : list price) : area :=
  {| meta := meta a; values := Some vals |}.

Definition page_with_areas (day_ : page) (items : odict area) : page :=
  {| page_header := page_header day_; page_areas := Some items |}.

(** [key in tzs], and a page with such an area. *)
Definition in_registry (key : string) : bool :=
  match tzs !! key with
  | Some _ => true
  | None => false
  end.

Definition page_has_known_area (day_ : page) : bool :=
  existsb (fun item => in_registry item.1) (default [] (page_areas day_)).

(** A reference argument on which [astimezone] fails. *)
Definition not_a_datetime (dt : pydt) : Prop :=
  match dt with
  | DtDatetime _ => False
  | DtNone | DtDate _ | DtStr _ => True
  end.

(** Every area of [fin] is in the registry. *)
Definition fin_keys_known (fin : fin_t) : Prop :=
  forall key a, In (key, a) (default [] fin) -> is_Some (tzs !! key).

#[global] Instance pyfloat_eq_dec : EqDecision pyfloat.
Proof. solve_decision. Defined.

#[global] Instance price_eq_dec : EqDecision price.
Proof. solve_decision. Defined.

(** The area names of a page, in the order of the page, and the names of the
    registry among those of a list of pages. *)
Definition page_keys (day_ : page) : list string :=
  od_keys (default [] (page_areas day_)).

Definition known_keys (results : list page) : list string :=
  List.filter in_registry (concat (map page_keys results)).

(** A list of names with every name kept at its first place only. *)
Definition add_key (acc : list string) (k : string) : list string :=
  if existsb (String.eqb k) acc then acc else acc ++ [k].

Definition first_seen (keys : list string) : list string :=
  fold_left add_key keys [].

(** Every area of [fin] has a ["values"] list. *)
Definition fin_has_values (fin : fin_t) : Prop :=
  forall key a, In (key, a) (default [] fin) -> is_Some (values a).

(** The lists that the pages hold for one area, end to end. *)
Definition all_values (key : string) (results : list page) : list price :=
  concat (map (fun day_ => values_of (page_area day_ key)) results).

(** ** The requests of [fetch]

    A naive datetime is its reading in microseconds; its date is the count of
    whole days in it. *)
Definition date_of (t : Z) : Z := t / DAY.

(** The [end_date] argument of [_fetch_json]: absent, a date (by its day), a
    datetime (by its reading), or a string. *)
Inductive end_date_arg : Type :=
  | EdNone
  | EdDate (d : Z)
  | EdDatetime (t : Z)
  | EdStr (s : string).

(** The arguments of [self._io]: the page index put into [API_URL], the
    currency, and the [endDate] parameter. *)
Record request : Type := mkRequest {
  req_page : Z;
  req_currency : string;
  req_endDate : string
}.

Section FetchJson.

(** [dateutil.parser.parse], giving the reading of the datetime it builds, and
    [strftime("%d-%m-%Y")] of a day. *)
Variable parse_dt : string -> result Z.
Variable strftime_dmy : Z -> string.

(** [AioPrices._fetch_json(data_type, end_date)], up to the call of
    [self._io], with [today] what [date.today()] gives.  The result is the
    request that is sent. *)
Definition _fetch_json (today : Z) (currency : string) (data_type : Z)
    (end_date : end_date_arg) : result request :=
  do day <- match end_date with
            | EdNone => Ok (today + 1)
            | EdDate d => Ok d
            | EdDatetime t => Ok (date_of t)
            | EdStr s => do t <- parse_dt s; Ok (date_of t)
            end;
  Ok {| req_page := data_type;
        req_currency := currency;
        req_endDate := strftime_dmy day |}.

(** The [jobs] of [fetch]; [now1], [now2] and [now3] are the three readings
    of [datetime.now()], in the order of the source. *)
Definition fetch_jobs (today : Z) (currency : string) (data_type : Z)
    (now1 now2 now3 : Z) : list (result request) :=
  let yesterday := now1 - DAY in
  let today_ := now2 in
  let tomorrow := now3 + DAY in
  [ _fetch_json today currency data_type (EdDatetime yesterday);
    _fetch_json today currency data_type (EdDatetime today_);
    _fetch_json today currency data_type (EdDatetime tomorrow) ].

End FetchJson.

(** ** A concrete setting for the examples

    The European zones of the registry during 2021: central European time is
    UTC+1 and eastern European time UTC+2, both one hour ahead between
    2021-03-28T01:00Z and 2021-10-31T01:00Z. *)
Module Y2021.

Definition HOUR : Z := 3600000000.

Definition summer_time (t : Z) : bool :=
  (1616893200000000 <=? t) && (t <? 1635642000000000).

Definition eastern : list string :=
  ["Europe/Helsinki"; "Europe/Tallinn"; "Europe/Vilnius"; "Europe/Riga"].

Definition utcoffset (zone : string) (t : Z) : Z :=
  (if existsb (String.eqb zone) eastern then 2 * HOUR else HOUR)
  + (if summer_time t then HOUR else 0).

(** The summary rows of an hourly page, stamped with infinity. *)
Definition junk_keys : list string :=
  ["Average"; "Min"; "Max"; "Off-peak 1"; "Off-peak 2"; "Peak"].

Definition junk_value : pyval := Some pos_inf.

Definition join := join_result_for_correct_time utcoffset junk_keys junk_value.

(** 2021-03-15T00:00 in Stockholm (2021-03-14T23:00Z) and the reference
    instant 2021-03-15T12:00Z. *)
Definition midnight : Z := 1615762800000000.
Definition noon : Z := 1615809600000000.

(** The hour that starts [k] hours after that midnight. *)
Definition hour (k : Z) (v : pyval) : price :=
  {| val_start := midnight + k * HOUR;
     val_end := midnight + (k + 1) * HOUR;
     val_value := v |}.

Definition eur (cents : N) : pyval := Some (FNear false cents (-2)).

Definition mk_area (m : list (string * pyval)) (vs : list price) : area :=
  {| meta := list_to_map m; values := Some vs |}.

Definition mk_page (items : odict area) : page :=
  {| page_header := [("currency", "EUR")]; page_areas := Some items |}.

(** A page with the areas replaced. *)
Definition mk_page_of_items (day_ : page) (items : odict area) : page :=
  {| page_header := page_header day_; page_areas := Some items |}.

(** Three pages whose hours overlap: the hours 0 and 1 of the day are each
    in two pages. *)
Definition overlap1 : page :=
  mk_page [("SE1", mk_area [] [hour (-1) (eur 4000); hour 0 (eur 4100)])].
Definition overlap2 : page :=
  mk_page [("SE1", mk_area [] [hour 0 (eur 4100); hour 1 (eur 4200)])].
Definition overlap3 : page :=
  mk_page [("SE1", mk_area [] [hour 1 (eur 4200); hour 24 (eur 4300)])].

Definition fetch := fetch utcoffset junk_keys junk_value.
Definition after := mutated_page junk_keys junk_value.

(** What [add_junk] makes of an area without summary rows. *)
Definition junk_meta : gmap string pyval := add_junk junk_keys junk_value ∅.

(** A window of three pages with a Swedish and a Finnish area.  Each page
    stands for one reporting day; only a few hours of each are listed. *)
Definition win1 : page :=
  mk_page [("SE1", mk_area [] [hour (-1) (eur 3900)]);
           ("FI", mk_area [] [hour (-1) (eur 3950)])].
Definition win2 : page :=
  mk_page [("SE1", mk_area [] [hour 0 (eur 4000); hour 12 (eur 4500);
                               hour 23 (eur 4100)]);
           ("FI", mk_area [] [hour 0 (eur 4050); hour 12 (eur 4550);
                              hour 23 (eur 4150)])].
Definition win3 : page :=
  mk_page [("SE1", mk_area [] [hour 24 (eur 4200)]);
           ("FI", mk_area [] [hour 24 (eur 4250)])].

Definition win_fin_FI : area :=
  {| meta := junk_meta;
     values := Some [hour (-1) (eur 3950); hour 0 (eur 4050);
                     hour 12 (eur 4550)] |}.

Definition win_fin : odict area :=
  [("SE1", {| meta := junk_meta;
              values := Some [hour 0 (eur 4000); hour 12 (eur 4500);
                              hour 23 (eur 4100)] |});
   ("FI", win_fin_FI)].

(** The middle page with a missing price at 05:00. *)
Definition bad2_SE1 : area :=
  mk_area [] [hour 0 (eur 4000); hour 5 None; hour 6 (eur 4400)].

Definition bad2 : page :=
  mk_page [("SE1", bad2_SE1); ("FI", mk_area [] [hour 0 (eur 4050)])].

(** The middle page with an area that the registry lacks, whose list even
    has a missing price. *)
Definition pl2 : page :=
  mk_page [("PL", mk_area [("Median", eur 1)] [hour 5 None]);
           ("SE1", mk_area [] [hour 0 (eur 4000); hour 12 (eur 4500);
                               hour 23 (eur 4100)])].

(** Three pages that disagree on a metadata key which [add_junk] does not
    stamp. *)
Definition med1_SE1 : area :=
  mk_area [("Median", eur 1000)] [hour (-1) (eur 3900)].
Definition med2_SE1 : area :=
  mk_area [("Median", eur 2000)] [hour 0 (eur 4000)].
Definition med3_SE1 : area :=
  mk_area [("Median", eur 3000)] [hour 24 (eur 4200)].

Definition med1 : page := mk_page [("SE1", med1_SE1)].
Definition med2 : page := mk_page [("SE1", med2_SE1)].
Definition med3 : page := mk_page [("SE1", med3_SE1)].

Definition med_fin : odict area :=
  [("SE1", {| meta := <["Median" := eur 3000]> junk_meta;
              values := Some [hour 0 (eur 4000)] |})].

Definition overlap_fin : odict area :=
  [("SE1", {| meta := junk_meta;
              values := Some [hour 0 (eur 4100); hour 0 (eur 4100);
                              hour 1 (eur 4200); hour 1 (eur 4200)] |})].

(** The day on which summer time ends: Stockholm reads 00:00 at
    2021-10-30T22:00Z, and the hour from 00:00Z to 01:00Z starts and ends at
    02:00 on the local clock. *)
Definition october_noon : Z := 1635681600000000.

Definition october_hour (k : Z) (v : pyval) : price :=
  {| val_start := 1635631200000000 + k * HOUR;
     val_end := 1635631200000000 + (k + 1) * HOUR;
     val_value := v |}.

Definition october_page : page :=
  mk_page [("SE1", mk_area [] [october_hour 1 (eur 5000);
                               october_hour 2 (eur 5100);
                               october_hour 3 (eur 5200)])].

Definition october_fin_SE1 : area :=
  {| meta := junk_meta;
     values := Some [october_hour 1 (eur 5000);
                     october_hour 3 (eur 5200)] |}.

Definition october_fin : odict area := [("SE1", october_fin_SE1)].

(** The area of the October page, the same area without the hour that
    starts and ends at 02:00, and the page with no price for that hour. *)
Definition october_SE1 : area :=
  mk_area [] [october_hour 1 (eur 5000);
              october_hour 2 (eur 5100);
              october_hour 3 (eur 5200)].

Definition october_short : page :=
  mk_page [("SE1", mk_area [] [october_hour 1 (eur 5000);
                               october_hour 3 (eur 5200)])].

Definition october_gap : page :=
  mk_page [("SE1", mk_area [] [october_hour 1 (eur 5000);
                               october_hour 2 None;
                               october_hour 3 (eur 5200)])].

(** Pages for further examples: one that lists only an area outside the
    registry, one without the key ["areas"], one with a missing price at
    06:00 of the next day, one whose price at 05:00 is what the normalizer
    makes of ["-"]. *)
Definition pl_only : page :=
  mk_page [("PL", mk_area [("Median", eur 1)] [hour 5 None])].

Definition no_areas : page :=
  {| page_header := [("currency", "EUR")]; page_areas := None |}.

Definition late_gap_SE1 : area :=
  mk_area [] [hour 12 (eur 4500); hour 30 None].

Definition late_gap : page := mk_page [("SE1", late_gap_SE1)].

Definition dash_SE1 : area :=
  mk_area [] [hour 0 (eur 4000); hour 5 (Some pos_inf)].

Definition dash : page := mk_page [("SE1", dash_SE1)].

Definition win2_FI : area :=
  mk_area [] [hour 0 (eur 4050); hour 12 (eur 4550); hour 23 (eur 4150)].

(** The calendar date of a day count (days since 1970-01-01) and
    [strftime("%d-%m-%Y")] for the years 1000 to 9999. *)
Definition civil_from_days (days : Z) : Z * Z * Z :=
  let z := days + 719468 in
  let era := z / 146097 in
  let doe := z - era * 146097 in
  let yoe := (doe - doe / 1460 + doe / 36524 - doe / 146096) / 365 in
  let doy := doe - (365 * yoe + yoe / 4 - yoe / 100) in
  let mp := (5 * doy + 2) / 153 in
  let d := doy - (153 * mp + 2) / 5 + 1 in
  let m := if mp <? 10 then mp + 3 else mp - 9 in
  let y := yoe + era * 400 + (if m <=? 2 then 1 else 0) in
  (y, m, d).

Definition digit_char (n : Z) : ascii := ascii_of_nat (48 + Z.to_nat (n mod 10)).

Definition two_digits (n : Z) : list ascii :=
  [digit_char (n / 10); digit_char n].

Definition strftime_dmy (day : Z) : string :=
  let '(y, m, d) := civil_from_days day in
  string_of_list_ascii
    (two_digits d ++ ["-"%char] ++ two_digits m ++ ["-"%char] ++
     two_digits (y / 100) ++ two_digits y).

(** No string is used as a date in the examples. *)
Definition parse_dt (s : string) : result Z := Raise ValueError.

Definition jobs := fetch_jobs parse_dt strftime_dmy.

End Y2021.

(** ** Facts about the data structures *)

Lemma od_get_od_set {V} (k k' : string) (v : V) (d : odict V) :
  od_get k (od_set k' v d) = if String.eqb k k' then Some v else od_get k d.
Proof.
  induction d as [|[k0 v0] d IH]; simpl.
  - destruct (String.eqb k k'); reflexivity.
  - destruct (String.eqb k' k0) eqn:E0; simpl.
    + apply String.eqb_eq in E0. subst k0.
      destruct (String.eqb k k'); reflexivity.
    + destruct (String.eqb k k0) eqn:E1.
      * apply String.eqb_eq in E1. subst k0.
        rewrite String.eqb_sym, E0. reflexivity.
      * exact IH.
Qed.

Lemma In_od_set {V} (k k' : string) (v a : V) (d : odict V) :
  In (k, a) (od_set k' v d) -> (k = k' /\ a = v) \/ In (k, a) d.
Proof.
  induction d as [|[k0 v0] d IH]; simpl.
  - intros [H|[]]. inversion H. auto.
  - destruct (String.eqb k' k0); simpl.
    + intros [H|H]; [inversion H; auto | auto].
    + intros [H|H]; [auto | destruct (IH H); auto].
Qed.

Lemma od_get_In {V} (k : string) (v : V) (d : odict V) :
  od_get k d = Some v -> In (k, v) d.
Proof.
  induction d as [|[k0 v0] d IH]; simpl; [discriminate|].
  destruct (String.eqb k k0) eqn:E.
  - apply String.eqb_eq in E. intros [= ->]. left. congruence.
  - auto.
Qed.

Lemma od_get_None {V} (k : string) (d : odict V) :
  ~ In k (od_keys d) -> od_get k d = None.
Proof.
  induction d as [|[k0 v0] d IH]; simpl; [reflexivity|].
  unfold od_keys in *. simpl. intros H.
  destruct (String.eqb k k0) eqn:E.
  - apply String.eqb_eq in E. subst k0. tauto.
  - apply IH. tauto.
Qed.

Lemma day_bounds (w x : Z) :
  w - w mod DAY <= x <= w - w mod DAY + (DAY - 1) <-> x / DAY = w / DAY.
Proof.
  unfold DAY. split; intros H.
  - Z.div_mod_to_equations. lia.
  - Z.div_mod_to_equations. lia.
Qed.

Lemma add_junk_lookup junk_keys junk_value (d : gmap string pyval) m :
  add_junk junk_keys junk_value d !! m =
    if bool_decide (m ∈ junk_keys) then Some junk_value else d !! m.
Proof.
  unfold add_junk. revert d.
  induction junk_keys as [|k ks IH]; intros d; simpl.
  - reflexivity.
  - rewrite IH. destruct (decide (m = k)) as [->|Hne].
    + rewrite lookup_insert_eq.
      rewrite (bool_decide_eq_true_2 (k ∈ k :: ks)) by left.
      destruct (bool_decide (k ∈ ks)); reflexivity.
    + rewrite lookup_insert_ne by congruence.
      destruct (bool_decide (m ∈ ks)) eqn:E.
      * apply bool_decide_eq_true_1 in E.
        rewrite bool_decide_eq_true_2 by (right; exact E). reflexivity.
      * apply bool_decide_eq_false_1 in E.
        rewrite bool_decide_eq_false_2; [reflexivity|].
        intros [?|?]%elem_of_cons; tauto.
Qed.

(** ** Facts about the merge *)

Section MergeFacts.

Variable utcoffset : string -> Z -> Z.
Variable junk_keys : list string.
Variable junk_value : pyval.

Local Abbreviation astz := (astimezone utcoffset).
Local Abbreviation select := (select_values utcoffset).
Local Abbreviation is_bad := (is_bad utcoffset).
Local Abbreviation is_kept := (is_kept utcoffset).
Local Abbreviation in_range := (in_range utcoffset).
Local Abbreviation fin_ok := (fin_ok utcoffset).
Local Abbreviation sod := (start_of_day utcoffset).
Local Abbreviation kept := (kept_values utcoffset).
Local Abbreviation area_is_bad := (area_is_bad utcoffset).
Local Abbreviation page_is_bad := (page_is_bad utcoffset).
Local Abbreviation mutated_entry := (mutated_entry junk_keys junk_value).
Local Abbreviation mutated_page := (mutated_page junk_keys junk_value).
Local Abbreviation stamped_meta_of := (stamped_meta_of junk_keys junk_value).
Local Abbreviation eod := (end_of_day utcoffset).
Local Abbreviation add_junk := (add_junk junk_keys junk_value).
Local Abbreviation mutated := (mutated junk_keys junk_value).
Local Abbreviation m_area := (merge_area utcoffset junk_keys junk_value).
Local Abbreviation m_areas := (merge_areas utcoffset junk_keys junk_value).
Local Abbreviation m_page := (merge_page utcoffset junk_keys junk_value).
Local Abbreviation m_pages := (merge_pages utcoffset junk_keys junk_value).
Local Abbreviation join :=
  (join_result_for_correct_time utcoffset junk_keys junk_value).

Lemma select_values_spec zone sod eod vals out :
  select zone sod eod vals out =
    if existsb (is_bad zone sod eod) vals then Raise InvalidValueException
    else Ok (out ++ List.filter (is_kept zone sod eod) vals).
Proof.
  revert out. induction vals as [|val vals IH]; intros out; simpl.
  - rewrite app_nil_r. reflexivity.
  - unfold is_bad, is_kept, in_range.
    destruct (_ && _) eqn:Hr; simpl.
    + destruct (in_INVALID_VALUES (val_value val)); simpl; [reflexivity|].
      destruct (_ =? _); simpl; rewrite IH; unfold is_bad, is_kept, in_range.
      * reflexivity.
      * rewrite <- app_assoc. reflexivity.
    + rewrite IH. reflexivity.
Qed.

(** A record with a valid value whose start and end read the same on the
    local clock is passed over: the loop goes on as if it were not there. *)
Lemma equal_local_start_end_is_passed_over zone sod eod val rest out :
  in_INVALID_VALUES (val_value val) = false ->
  astz zone (val_start val) = astz zone (val_end val) ->
  select zone sod eod (val :: rest) out = select zone sod eod rest out.
Proof.
  intros Hv He. cbn [select_values]. rewrite Hv, He, Z.eqb_refl.
  destruct (_ && _); reflexivity.
Qed.

Lemma merge_area_unknown dt key value fin :
  tzs !! key = None -> m_area dt key value fin = (value, Ok fin).
Proof. intros H. unfold merge_area. rewrite H. reflexivity. Qed.

Lemma merge_area_known zone utc vals key value fin :
  tzs !! key = Some zone ->
  values value = Some vals ->
  m_area (DtDatetime utc) key value fin =
    (mutated value,
     if existsb (is_bad zone (sod zone utc) (eod zone utc)) vals
     then Raise InvalidValueException
     else Ok (Some (od_set key
                {| meta := add_junk (meta value) ∪ fin_meta fin key;
                   values := Some (fin_values fin key ++
                     List.filter (is_kept zone (sod zone utc) (eod zone utc))
                       vals) |}
                (default [] fin)))).
Proof.
  intros Hz Hv. unfold merge_area. rewrite Hz. simpl. rewrite Hv. simpl.
  f_equal. rewrite select_values_spec.
  unfold start_of_day, end_of_day.
  destruct (existsb _ vals); reflexivity.
Qed.

Lemma merge_area_Ok_inv dt key value fin value' fin' :
  m_area dt key value fin = (value', Ok fin') ->
  (tzs !! key = None /\ value' = value /\ fin' = fin) \/
  (exists zone utc vals,
      tzs !! key = Some zone /\ dt = DtDatetime utc /\
      values value = Some vals /\ value' = mutated value /\
      existsb (is_bad zone (sod zone utc) (eod zone utc)) vals = false /\
      fin' = Some (od_set key
                {| meta := add_junk (meta value) ∪ fin_meta fin key;
                   values := Some (fin_values fin key ++
                     List.filter (is_kept zone (sod zone utc) (eod zone utc))
                       vals) |}
                (default [] fin))).
Proof.
  destruct (tzs !! key) as [zone|] eqn:Hz.
  - intros H. right.
    destruct (values value) as [vals|] eqn:Hv.
    + destruct dt as [|utc|d|s];
        try (unfold merge_area in H; rewrite Hz in H; simpl in H;
             rewrite Hv in H; simpl in H; discriminate).
      rewrite (merge_area_known zone utc vals) in H by assumption.
      destruct (existsb _ vals) eqn:Hb; [discriminate|].
      inversion H; subst. exists zone, utc, vals. auto 10.
    + unfold merge_area in H. rewrite Hz in H. simpl in H.
      rewrite Hv in H. discriminate.
  - rewrite merge_area_unknown by assumption.
    intros [= <- <-]. left. auto.
Qed.

Lemma merge_area_Raise_inv dt key value fin value' e :
  m_area dt key value fin = (value', Raise e) ->
  exists zone,
    tzs !! key = Some zone /\ value' = mutated value /\
    ((values value = None /\ e = KeyError) \/
     (exists vals, values value = Some vals /\
        match dt with
        | DtDatetime utc =>
            existsb (is_bad zone (sod zone utc) (eod zone utc)) vals = true
            /\ e = InvalidValueException
        | _ => e = AttributeError
        end)).
Proof.
  destruct (tzs !! key) as [zone|] eqn:Hz.
  - intros H. exists zone. split; [reflexivity|].
    destruct (values value) as [vals|] eqn:Hv.
    + destruct dt as [|utc|d|s].
      2: { rewrite (merge_area_known zone utc vals) in H by assumption.
           destruct (existsb _ vals) eqn:Hb; [|discriminate].
           inversion H; subst. split; [reflexivity|].
           right. exists vals. auto. }
      all: unfold merge_area in H; rewrite Hz in H; simpl in H;
           rewrite Hv in H; simpl in H; inversion H; subst;
           (split; [reflexivity | right; exists vals; auto]).
    + unfold merge_area in H. rewrite Hz in H. simpl in H.
      rewrite Hv in H. inversion H; subst.
      split; [reflexivity | left; auto].
  - rewrite merge_area_unknown by assumption. discriminate.
Qed.

Lemma merge_areas_cons dt key value rest fin :
  m_areas dt ((key, value) :: rest) fin =
    match m_area dt key value fin with
    | (value', Ok fin') =>
        let '(rest', r) := m_areas dt rest fin' in
        ((key, value') :: rest', r)
    | (value', Raise e) => ((key, value') :: rest, Raise e)
    end.
Proof. reflexivity. Qed.

Lemma merge_pages_cons dt day_ rest fin :
  m_pages dt (day_ :: rest) fin =
    match m_page dt day_ fin with
    | (day', Ok fin') =>
        let '(rest', r) := m_pages dt rest fin' in
        (day' :: rest', r)
    | (day', Raise e) => (day' :: rest, Raise e)
    end.
Proof. reflexivity. Qed.

(** A property of [fin] that every successful run of the loop body keeps
    is kept by the whole merge. *)
Section Invariant.

Variable dt : pydt.
Variable P : fin_t -> Prop.
Hypothesis P_step : forall key value fin value' fin',
  m_area dt key value fin = (value', Ok fin') -> P fin -> P fin'.

Lemma merge_areas_invariant items : forall fin items' fin',
  m_areas dt items fin = (items', Ok fin') -> P fin -> P fin'.
Proof.
  induction items as [|[key value] rest IH]; intros fin items' fin'.
  - intros [= <- <-]. auto.
  - rewrite merge_areas_cons.
    destruct (m_area dt key value fin) as [value' [fin1|e]] eqn:Hs.
    + destruct (m_areas dt rest fin1) as [rest' r] eqn:Hr.
      intros [= <- ->] HP. eapply IH; eauto.
    + discriminate.
Qed.

Lemma merge_page_invariant day_ fin day' fin' :
  m_page dt day_ fin = (day', Ok fin') -> P fin -> P fin'.
Proof.
  unfold merge_page. destruct (page_areas day_) as [items|].
  - destruct (m_areas dt items fin) as [items' r] eqn:Hr.
    intros [= <- ->]. eapply merge_areas_invariant; eauto.
  - intros [= <- <-]. auto.
Qed.

Lemma merge_pages_invariant results : forall fin results' fin',
  m_pages dt results fin = (results', Ok fin') -> P fin -> P fin'.
Proof.
  induction results as [|day_ rest IH]; intros fin results' fin'.
  - intros [= <- <-]. auto.
  - rewrite merge_pages_cons.
    destruct (m_page dt day_ fin) as [day' [fin1|e]] eqn:Hs.
    + destruct (m_pages dt rest fin1) as [rest' r] eqn:Hr.
      intros [= <- ->] HP. eapply IH; eauto.
      eapply merge_page_invariant; eauto.
    + discriminate.
Qed.

End Invariant.

Lemma fin_values_In fin key val :
  In val (fin_values fin key) ->
  exists a vs,
    In (key, a) (default [] fin) /\ values a = Some vs /\ In val vs.
Proof.
  unfold fin_values, fin_area.
  destruct (od_get key (default [] fin)) as [a|] eqn:Hg; simpl.
  - destruct (values a) as [vs|] eqn:Hv; simpl; [|intros []].
    intros Hin. exists a, vs. auto using od_get_In.
  - intros [].
Qed.

Lemma fin_ok_step dt key value fin value' fin' :
  m_area dt key value fin = (value', Ok fin') ->
  fin_ok dt fin -> fin_ok dt fin'.
Proof.
  intros H Hok. apply merge_area_Ok_inv in H.
  destruct H as [(_ & _ & ->) | (zone & utc & vals & Hz & -> & Hv & _ & _ & ->)];
    [exact Hok|].
  intros k a vs val Hin Hvs Hval. simpl in Hin.
  apply In_od_set in Hin. destruct Hin as [[-> ->] | Hin].
  - simpl in Hvs. injection Hvs as <-.
    apply in_app_or in Hval. destruct Hval as [Hval | Hval].
    + apply fin_values_In in Hval. destruct Hval as (a0 & vs0 & H1 & H2 & H3).
      eapply Hok; eauto.
    + apply filter_In in Hval. exists zone, utc. tauto.
  - eapply Hok; eauto.
Qed.

Lemma join_fin_ok results dt results' fin :
  join results dt = (results', Ok fin) -> fin_ok dt fin.
Proof.
  intros H. unfold join_result_for_correct_time in H.
  eapply (merge_pages_invariant dt (fin_ok dt)) in H; eauto.
  - intros; eapply fin_ok_step; eauto.
  - intros k a vs val [].
Qed.

(** C1. In the merged output, every record kept for an area has its zone in
    the registry and a start whose reading in that zone lies between
    00:00:00.000000 and 23:59:59.999999 of the day on which the reference
    instant falls in that zone; the two bounds are the first and the last
    microsecond of that calendar day. *)
Theorem output_start_within_local_day
    results dt results' fa key a vs val :
  join results dt = (results', Ok (Some fa)) ->
  od_get key fa = Some a ->
  values a = Some vs ->
  In val vs ->
  exists zone utc,
    tzs !! key = Some zone /\ dt = DtDatetime utc /\
    sod zone utc <= astz zone (val_start val) <= eod zone utc /\
    sod zone utc = DAY * (astz zone utc / DAY) /\
    eod zone utc = sod zone utc + (DAY - 1) /\
    astz zone (val_start val) / DAY = astz zone utc / DAY.
Proof.
  intros H Hg Hv Hin. apply join_fin_ok in H.
  destruct (H key a vs val) as (zone & utc & Hz & -> & Hk);
    auto using od_get_In.
  exists zone, utc. split; [assumption|]. split; [reflexivity|].
  unfold is_kept, in_range in Hk.
  apply andb_prop in Hk. destruct Hk as [Hr _].
  apply andb_prop in Hr. destruct Hr as [H1 H2].
  apply Z.leb_le in H1, H2.
  assert (Hb : sod zone utc <= astz zone (val_start val) <= eod zone utc)
    by lia.
  split; [exact Hb|].
  unfold start_of_day, end_of_day, replace_time in *.
  split; [|split].
  - pose proof (Z.div_mod (astz zone utc) DAY). unfold DAY in *. lia.
  - lia.
  - apply day_bounds. lia.
Qed.

(** *** A record whose start and end read the same on the local clock *)

(** Anywhere in the list of an area, such a record with a valid value
    changes nothing in what the loop gives. *)
Lemma select_values_without_equal_local_start_end
    zone sod eod before val after out :
  in_INVALID_VALUES (val_value val) = false ->
  astz zone (val_start val) = astz zone (val_end val) ->
  select zone sod eod (before ++ val :: after) out =
    select zone sod eod (before ++ after) out.
Proof.
  intros Hv He. rewrite !select_values_spec.
  rewrite !existsb_app, !List.filter_app. cbn [existsb List.filter].
  unfold is_bad at 2. unfold is_kept at 2.
  rewrite Hv, He, Z.eqb_refl, !andb_false_r. reflexivity.
Qed.

Lemma merge_area_without_equal_local_start_end
    dt key zone a before val after fin :
  tzs !! key = Some zone ->
  values a = Some (before ++ val :: after) ->
  in_INVALID_VALUES (val_value val) = false ->
  astz zone (val_start val) = astz zone (val_end val) ->
  (m_area dt key a fin).2 =
    (m_area dt key (area_with_values a (before ++ after)) fin).2.
Proof.
  intros Hz Ha Hv He. unfold merge_area. rewrite Hz.
  cbn [values meta area_with_values]. rewrite Ha. cbn [snd].
  destruct dt as [|utc|d|str]; try reflexivity.
  cbn [dt_astimezone bind].
  rewrite (select_values_without_equal_local_start_end _ _ _ _ _ _ _ Hv He).
  reflexivity.
Qed.

Lemma merge_areas_without_equal_local_start_end
    dt ipre key zone a ipost before val after fin :
  tzs !! key = Some zone ->
  values a = Some (before ++ val :: after) ->
  in_INVALID_VALUES (val_value val) = false ->
  astz zone (val_start val) = astz zone (val_end val) ->
  (m_areas dt (ipre ++ (key, a) :: ipost) fin).2 =
    (m_areas dt
       (ipre ++ (key, area_with_values a (before ++ after)) :: ipost) fin).2.
Proof.
  intros Hz Ha Hv He. revert fin.
  induction ipre as [|[k v] ipre IH]; intros fin.
  - change ([] ++ ?l) with l. rewrite !merge_areas_cons.
    pose proof (merge_area_without_equal_local_start_end
                  dt key zone a before val after fin Hz Ha Hv He) as H.
    destruct (m_area dt key a fin) as [v1 r1].
    destruct (m_area dt key (area_with_values a (before ++ after)) fin)
      as [v2 r2].
    cbn [snd] in H. subst r2.
    destruct r1 as [fin'|e]; [|reflexivity].
    destruct (m_areas dt ipost fin') as [rest' r]. reflexivity.
  - rewrite <- !app_comm_cons, !merge_areas_cons.
    destruct (m_area dt k v fin) as [v1 [fin'|e]]; [|reflexivity].
    specialize (IH fin').
    destruct (m_areas dt (ipre ++ (key, a) :: ipost) fin') as [l1 r1].
    destruct (m_areas dt
                (ipre ++ (key, area_with_values a (before ++ after))
                   :: ipost) fin') as [l2 r2].
    cbn [snd] in IH. subst r2. reflexivity.
Qed.

Lemma merge_page_without_equal_local_start_end
    dt day_ ipre key zone a ipost before val after fin :
  page_areas day_ = Some (ipre ++ (key, a) :: ipost) ->
  tzs !! key = Some zone ->
  values a = Some (before ++ val :: after) ->
  in_INVALID_VALUES (val_value val) = false ->
  astz zone (val_start val) = astz zone (val_end val) ->
  (m_page dt day_ fin).2 =
    (m_page dt
       (page_with_areas day_
          (ipre ++ (key, area_with_values a (before ++ after)) :: ipost))
       fin).2.
Proof.
  intros Hd Hz Ha Hv He. unfold merge_page.
  cbn [page_areas page_header page_with_areas]. rewrite Hd.
  pose proof (merge_areas_without_equal_local_start_end
                dt ipre key zone a ipost before val after fin Hz Ha Hv He)
    as H.
  destruct (m_areas dt (ipre ++ (key, a) :: ipost) fin) as [l1 r1].
  destruct (m_areas dt
              (ipre ++ (key, area_with_values a (before ++ after)) :: ipost)
              fin) as [l2 r2].
  exact H.
Qed.

Lemma merge_pages_without_equal_local_start_end
    dt pre day_ post ipre key zone a ipost before val after fin :
  page_areas day_ = Some (ipre ++ (key, a) :: ipost) ->
  tzs !! key = Some zone ->
  values a = Some (before ++ val :: after) ->
  in_INVALID_VALUES (val_value val) = false ->
  astz zone (val_start val) = astz zone (val_end val) ->
  (m_pages dt (pre ++ day_ :: post) fin).2 =
    (m_pages dt
       (pre ++
        page_with_areas day_
          (ipre ++ (key, area_with_values a (before ++ after)) :: ipost)
        :: post) fin).2.
Proof.
  intros Hd Hz Ha Hv He. revert fin.
  induction pre as [|p pre IH]; intros fin.
  - change ([] ++ ?l) with l. rewrite !merge_pages_cons.
    pose proof (merge_page_without_equal_local_start_end
                  dt day_ ipre key zone a ipost before val after fin
                  Hd Hz Ha Hv He) as H.
    destruct (m_page dt day_ fin) as [d1 r1].
    destruct (m_page dt
                (page_with_areas day_
                   (ipre ++ (key, area_with_values a (before ++ after))
                      :: ipost)) fin) as [d2 r2].
    cbn [snd] in H. subst r2.
    destruct r1 as [fin'|e]; [|reflexivity].
    destruct (m_pages dt post fin') as [rest' r]. reflexivity.
  - rewrite <- !app_comm_cons, !merge_pages_cons.
    destruct (m_page dt p fin) as [d1 [fin'|e]]; [|reflexivity].
    specialize (IH fin').
    destruct (m_pages dt (pre ++ day_ :: post) fin') as [l1 r1].
    destruct (m_pages dt
                (pre ++
                 page_with_areas day_
                   (ipre ++ (key, area_with_values a (before ++ after))
                      :: ipost)
                 :: post) fin') as [l2 r2].
    cbn [snd] in IH. subst r2. reflexivity.
Qed.

(** C5, amended.  In the merged output, no record has a start and an end
    that read the same on the clock of its area's zone.  A record of a page
    whose local start equals its local end and whose value is valid is
    skipped, not an error: with or without it in the page, the merge ends
    in the same way, with the same result or the same exception.  The test
    for an invalid value comes first, though: a record in range whose value
    is invalid makes the loop raise [InvalidValueException], whatever its
    local start and end are. *)
Theorem output_excludes_equal_local_start_end :
  (forall results dt results' fa key a vs val,
     join results dt = (results', Ok (Some fa)) ->
     od_get key fa = Some a ->
     values a = Some vs ->
     In val vs ->
     exists zone,
       tzs !! key = Some zone /\
       astz zone (val_start val) <> astz zone (val_end val)) /\
  (forall dt pre day_ post ipre key zone a ipost before val after,
     page_areas day_ = Some (ipre ++ (key, a) :: ipost) ->
     tzs !! key = Some zone ->
     values a = Some (before ++ val :: after) ->
     in_INVALID_VALUES (val_value val) = false ->
     astz zone (val_start val) = astz zone (val_end val) ->
     (join (pre ++ day_ :: post) dt).2 =
       (join
          (pre ++
           page_with_areas day_
             (ipre ++ (key, area_with_values a (before ++ after)) :: ipost)
           :: post) dt).2) /\
  (forall zone sod eod val rest out,
     in_range zone sod eod val = true ->
     in_INVALID_VALUES (val_value val) = true ->
     select zone sod eod (val :: rest) out = Raise InvalidValueException).
Proof.
  split; [|split].
  - intros results dt results' fa key a vs val H Hg Hv Hin.
    apply join_fin_ok in H.
    destruct (H key a vs val) as (zone & utc & Hz & -> & Hk);
      auto using od_get_In.
    exists zone. split; [assumption|].
    unfold is_kept in Hk. apply andb_prop in Hk. destruct Hk as [_ Hne].
    apply negb_true_iff, Z.eqb_neq in Hne. exact Hne.
  - intros dt pre day_ post ipre key zone a ipost before val after
      Hd Hz Ha Hv He.
    unfold join_result_for_correct_time.
    exact (merge_pages_without_equal_local_start_end
             dt pre day_ post ipre key zone a ipost before val after None
             Hd Hz Ha Hv He).
  - intros zone sod eod val rest out Hr Hv.
    unfold in_range in Hr. cbn [select_values]. rewrite Hr, Hv.
    reflexivity.
Qed.

(** *** What the merge accumulates for one area *)

Lemma fin_area_od_set fin key new k :
  fin_area (Some (od_set key new (default [] fin))) k =
    if String.eqb k key then new else fin_area fin k.
Proof.
  unfold fin_area. simpl. rewrite od_get_od_set.
  destruct (String.eqb k key); reflexivity.
Qed.

Lemma merge_areas_acc utc k zone items : forall fin items' fin',
  NoDup (od_keys items) ->
  tzs !! k = Some zone ->
  m_areas (DtDatetime utc) items fin = (items', Ok fin') ->
  fin_values fin' k =
    fin_values fin k ++ kept zone utc (values_of (od_get k items)) /\
  fin_meta fin' k = stamped_meta_of (od_get k items) ∪ fin_meta fin k.
Proof.
  induction items as [|[key value] rest IH]; intros fin items' fin' Hnd Hz.
  - intros [= <- <-]. simpl. rewrite app_nil_r, (left_id_L ∅ (∪)). auto.
  - rewrite merge_areas_cons.
    unfold od_keys in Hnd. simpl in Hnd. apply NoDup_cons in Hnd.
    destruct Hnd as [Hnot Hnd].
    destruct (m_area (DtDatetime utc) key value fin)
      as [value' [fin1|e]] eqn:Hs; [|discriminate].
    destruct (m_areas (DtDatetime utc) rest fin1) as [rest' r] eqn:Hr.
    intros [= <- ->].
    destruct (IH _ _ _ Hnd Hz Hr) as [IHv IHm].
    apply merge_area_Ok_inv in Hs.
    change (od_get k ((key, value) :: rest))
      with (if String.eqb k key then Some value else od_get k rest).
    destruct Hs as [(Hu & _ & ->) |
                    (zone0 & utc0 & vals & Hz0 & Hdt & Hv & _ & _ & ->)].
    + destruct (String.eqb k key) eqn:E.
      * apply String.eqb_eq in E. congruence.
      * auto.
    + rewrite IHv, IHm.
      unfold fin_values, fin_meta. rewrite fin_area_od_set.
      destruct (String.eqb k key) eqn:E; [|auto].
      apply String.eqb_eq in E. subst key.
      assert (zone0 = zone) by congruence. subst zone0.
      injection Hdt as <-.
      rewrite (od_get_None k rest)
        by (rewrite <- list_elem_of_In; exact Hnot).
      simpl. rewrite Hv. simpl.
      rewrite app_nil_r, (left_id_L ∅ (∪)). auto.
Qed.

Lemma merge_page_acc utc k zone day_ fin day' fin' :
  page_wf day_ ->
  tzs !! k = Some zone ->
  m_page (DtDatetime utc) day_ fin = (day', Ok fin') ->
  fin_values fin' k =
    fin_values fin k ++ kept zone utc (values_of (page_area day_ k)) /\
  fin_meta fin' k = stamped_meta_of (page_area day_ k) ∪ fin_meta fin k.
Proof.
  unfold page_wf, page_area, merge_page.
  destruct (page_areas day_) as [items|]; simpl.
  - destruct (m_areas (DtDatetime utc) items fin) as [items' r] eqn:Hr.
    intros Hnd Hz [= <- ->]. eapply merge_areas_acc; eauto.
  - intros _ _ [= <- <-]. rewrite app_nil_r, (left_id_L ∅ (∪)). auto.
Qed.

Lemma merge_pages_Ok_cons dt day_ rest fin results' fin' :
  m_pages dt (day_ :: rest) fin = (results', Ok fin') ->
  exists day' fin1 rest',
    m_page dt day_ fin = (day', Ok fin1) /\
    m_pages dt rest fin1 = (rest', Ok fin') /\
    results' = day' :: rest'.
Proof.
  rewrite merge_pages_cons.
  destruct (m_page dt day_ fin) as [day' [fin1|e]] eqn:Hs; [|discriminate].
  destruct (m_pages dt rest fin1) as [rest' r] eqn:Hr.
  intros [= <- ->]. eauto 10.
Qed.

(** Three pages: the values lists append in page order and each page's
    metadata is laid over what was there. *)
Lemma fetch_acc utc k zone p1 p2 p3 results' fin :
  page_wf p1 -> page_wf p2 -> page_wf p3 ->
  tzs !! k = Some zone ->
  join [p1; p2; p3] (DtDatetime utc) = (results', Ok fin) ->
  fin_values fin k =
    kept zone utc (values_of (page_area p1 k)) ++
    kept zone utc (values_of (page_area p2 k)) ++
    kept zone utc (values_of (page_area p3 k)) /\
  fin_meta fin k =
    stamped_meta_of (page_area p3 k) ∪
    (stamped_meta_of (page_area p2 k) ∪ stamped_meta_of (page_area p1 k)).
Proof.
  intros W1 W2 W3 Hz H. unfold join_result_for_correct_time in H.
  apply merge_pages_Ok_cons in H.
  destruct H as (d1 & f1 & r1 & H1 & H & _).
  apply merge_pages_Ok_cons in H.
  destruct H as (d2 & f2 & r2 & H2 & H & _).
  apply merge_pages_Ok_cons in H.
  destruct H as (d3 & f3 & r3 & H3 & H & _).
  simpl in H. injection H as _ <-.
  destruct (merge_page_acc _ _ _ _ _ _ _ W1 Hz H1) as [V1 M1].
  destruct (merge_page_acc _ _ _ _ _ _ _ W2 Hz H2) as [V2 M2].
  destruct (merge_page_acc _ _ _ _ _ _ _ W3 Hz H3) as [V3 M3].
  rewrite V3, V2, V1, M3, M2, M1.
  unfold fin_values, fin_meta, fin_area. simpl.
  rewrite (right_id_L ∅ (∪)), <- !app_assoc. auto.
Qed.

(** C2 (amended). Nothing is deduplicated: for three pages, the output
    list of an area of the registry is what the first page's list keeps,
    then what the second keeps, then what the third keeps, so a record
    occurs in the output once for each page occurrence that is kept. *)
Theorem overlapping_pages_keep_every_occurrence
    utc key zone p1 p2 p3 results' fin :
  page_wf p1 -> page_wf p2 -> page_wf p3 ->
  tzs !! key = Some zone ->
  fetch utcoffset junk_keys junk_value p1 p2 p3 (DtDatetime utc)
    = (results', Ok fin) ->
  fin_values fin key =
    kept zone utc (values_of (page_area p1 key)) ++
    kept zone utc (values_of (page_area p2 key)) ++
    kept zone utc (values_of (page_area p3 key)) /\
  forall val,
    count_occ price_eq_dec (fin_values fin key) val =
      (count_occ price_eq_dec
         (kept zone utc (values_of (page_area p1 key))) val +
       count_occ price_eq_dec
         (kept zone utc (values_of (page_area p2 key))) val +
       count_occ price_eq_dec
         (kept zone utc (values_of (page_area p3 key))) val)%nat.
Proof.
  intros W1 W2 W3 Hz H.
  destruct (fetch_acc _ _ _ _ _ _ _ _ W1 W2 W3 Hz H) as [Hv _].
  split; [exact Hv|].
  intros val. rewrite Hv, !count_occ_app. lia.
Qed.

(** C4 (amended). [update] overwrites: when three pages hold the same area
    of the registry, a metadata key of the output has the value of the last
    page that holds the key (after [add_junk], which gives every stamped
    key the placeholder), and a key that later pages lack keeps the value
    it had; the values lists of the three pages accumulate in page order. *)
Theorem later_pages_overwrite_metadata
    utc key zone p1 p2 p3 a1 a2 a3 results' fin :
  page_wf p1 -> page_wf p2 -> page_wf p3 ->
  tzs !! key = Some zone ->
  page_area p1 key = Some a1 ->
  page_area p2 key = Some a2 ->
  page_area p3 key = Some a3 ->
  fetch utcoffset junk_keys junk_value p1 p2 p3 (DtDatetime utc)
    = (results', Ok fin) ->
  (forall m,
     fin_meta fin key !! m =
       if bool_decide (m ∈ junk_keys) then Some junk_value
       else match meta a3 !! m with
            | Some v => Some v
            | None =>
                match meta a2 !! m with
                | Some v => Some v
                | None => meta a1 !! m
                end
            end) /\
  fin_values fin key =
    kept zone utc (default [] (values a1)) ++
    kept zone utc (default [] (values a2)) ++
    kept zone utc (default [] (values a3)).
Proof.
  intros W1 W2 W3 Hz A1 A2 A3 H.
  destruct (fetch_acc _ _ _ _ _ _ _ _ W1 W2 W3 Hz H) as [Hv Hm].
  rewrite A1, A2, A3 in Hv, Hm. simpl in Hv, Hm.
  split; [|exact Hv].
  intros m. rewrite Hm, !lookup_union, !add_junk_lookup.
  destruct (bool_decide (m ∈ junk_keys)); [reflexivity|].
  destruct (meta a3 !! m), (meta a2 !! m), (meta a1 !! m); reflexivity.
Qed.

(** *** Fresh pages and a datetime: the only failure is the invalid value *)

Lemma area_is_bad_eq utc key value :
  area_is_bad utc (key, value) =
    match tzs !! key, values value with
    | Some zone, Some vals =>
        existsb (is_bad zone (sod zone utc) (eod zone utc)) vals
    | _, _ => false
    end.
Proof. reflexivity. Qed.

Lemma merge_areas_fresh utc items : forall fin,
  (forall key a, In (key, a) items ->
     is_Some (tzs !! key) -> is_Some (values a)) ->
  if existsb (area_is_bad utc) items
  then (m_areas (DtDatetime utc) items fin).2 = Raise InvalidValueException
  else exists fin', (m_areas (DtDatetime utc) items fin).2 = Ok fin'.
Proof.
  induction items as [|[key value] rest IH]; intros fin Hfresh.
  - simpl. eauto.
  - rewrite merge_areas_cons.
    assert (Hrest : forall k a, In (k, a) rest ->
              is_Some (tzs !! k) -> is_Some (values a))
      by (intros; eapply Hfresh; [right|]; eauto).
    change (existsb (area_is_bad utc) ((key, value) :: rest))
      with (area_is_bad utc (key, value) || existsb (area_is_bad utc) rest).
    rewrite area_is_bad_eq.
    destruct (tzs !! key) as [zone|] eqn:Hz.
    + destruct (Hfresh key value) as [vals Hv]; [left; reflexivity|eauto|].
      rewrite Hv.
      rewrite (merge_area_known zone utc vals) by assumption.
      destruct (existsb _ vals); [reflexivity|].
      match goal with
      | |- context [m_areas _ rest ?f] => specialize (IH f Hrest)
      end.
      destruct (m_areas (DtDatetime utc) rest _) as [rest' r].
      exact IH.
    + rewrite merge_area_unknown by assumption.
      specialize (IH fin Hrest).
      destruct (m_areas (DtDatetime utc) rest fin) as [rest' r].
      exact IH.
Qed.

Lemma merge_page_fresh utc day_ fin :
  page_fresh day_ ->
  if page_is_bad utc day_
  then (m_page (DtDatetime utc) day_ fin).2 = Raise InvalidValueException
  else exists fin', (m_page (DtDatetime utc) day_ fin).2 = Ok fin'.
Proof.
  intros Hfresh. unfold page_fresh in Hfresh.
  unfold page_is_bad, merge_page.
  destruct (page_areas day_) as [items|]; [|simpl; eauto].
  pose proof (merge_areas_fresh utc items fin Hfresh) as H.
  destruct (m_areas (DtDatetime utc) items fin) as [items' r].
  exact H.
Qed.

Lemma merge_pages_fresh utc results : forall fin,
  Forall page_fresh results ->
  if existsb (page_is_bad utc) results
  then (m_pages (DtDatetime utc) results fin).2 = Raise InvalidValueException
  else exists fin', (m_pages (DtDatetime utc) results fin).2 = Ok fin'.
Proof.
  induction results as [|day_ rest IH]; intros fin Hfresh.
  - simpl. eauto.
  - rewrite merge_pages_cons.
    apply Forall_cons in Hfresh. destruct Hfresh as [Hd Hrest].
    change (existsb (page_is_bad utc) (day_ :: rest))
      with (page_is_bad utc day_ || existsb (page_is_bad utc) rest).
    pose proof (merge_page_fresh utc day_ fin Hd) as H.
    destruct (page_is_bad utc day_).
    + destruct (m_page (DtDatetime utc) day_ fin) as [day' r].
      simpl in H. subst r. reflexivity.
    + destruct H as [fin1 H].
      destruct (m_page (DtDatetime utc) day_ fin) as [day' r].
      simpl in H. subst r.
      specialize (IH fin1 Hrest).
      destruct (m_pages (DtDatetime utc) rest fin1) as [rest' r].
      exact IH.
Qed.

(** C3. When the pages are as the parser made them and the reference is a
    datetime, a record with an invalid value ([None] or positive infinity)
    whose local start lies in the local day of the reference, in an area of
    the registry, makes the merge raise [InvalidValueException]: no [fin]
    is returned, and the retry decorator of [fetch] does not catch that
    exception. *)
Theorem invalid_value_in_range_aborts_merge
    utc results day_ key zone a vals val :
  Forall page_fresh results ->
  In day_ results ->
  In (key, a) (default [] (page_areas day_)) ->
  tzs !! key = Some zone ->
  values a = Some vals ->
  In val vals ->
  in_INVALID_VALUES (val_value val) = true ->
  sod zone utc <= astz zone (val_start val) <= eod zone utc ->
  (join results (DtDatetime utc)).2 = Raise InvalidValueException /\
  backoff_retries InvalidValueException = false.
Proof.
  intros Hfresh Hday Hitem Hz Hv Hval Hinv Hrange.
  split; [|reflexivity].
  unfold join_result_for_correct_time.
  pose proof (merge_pages_fresh utc results None Hfresh) as H.
  assert (Hbad : existsb (page_is_bad utc) results = true).
  { apply existsb_exists. exists day_. split; [assumption|].
    unfold page_is_bad. apply existsb_exists.
    exists (key, a). split; [assumption|].
    rewrite area_is_bad_eq, Hz, Hv. apply existsb_exists.
    exists val. split; [assumption|].
    unfold is_bad, in_range.
    rewrite Hinv, andb_true_r.
    apply andb_true_intro. split; apply Z.leb_le; lia. }
  rewrite Hbad in H. exact H.
Qed.

(** *** Areas outside the registry *)

Lemma merge_areas_without dt key items : forall fin,
  tzs !! key = None ->
  (m_areas dt items fin).2 =
    (m_areas dt
       (List.filter (fun item => negb (String.eqb item.1 key)) items) fin).2.
Proof.
  induction items as [|[k value] rest IH]; intros fin Hz; [reflexivity|].
  rewrite merge_areas_cons.
  change (List.filter (fun item => negb (String.eqb item.1 key))
            ((k, value) :: rest))
    with (if negb (String.eqb k key)
          then (k, value) ::
               List.filter (fun item => negb (String.eqb item.1 key)) rest
          else List.filter (fun item => negb (String.eqb item.1 key)) rest).
  destruct (String.eqb k key) eqn:E; cbn [negb].
  - apply String.eqb_eq in E. subst k.
    rewrite merge_area_unknown by assumption.
    specialize (IH fin Hz).
    destruct (m_areas dt rest fin) as [rest' r]. exact IH.
  - rewrite merge_areas_cons.
    destruct (m_area dt k value fin) as [value' [fin1|e]]; [|reflexivity].
    specialize (IH fin1 Hz).
    destruct (m_areas dt rest fin1) as [rest' r].
    destruct (m_areas dt _ fin1) as [rest'' r'].
    exact IH.
Qed.

Lemma merge_page_without dt key day_ fin :
  tzs !! key = None ->
  (m_page dt day_ fin).2 = (m_page dt (page_without key day_) fin).2.
Proof.
  intros Hz. unfold merge_page, page_without.
  destruct (page_areas day_) as [items|]; [|reflexivity].
  cbn [page_areas option_map].
  pose proof (merge_areas_without dt key items fin Hz) as H.
  destruct (m_areas dt items fin) as [items' r].
  destruct (m_areas dt _ fin) as [items'' r'].
  exact H.
Qed.

Lemma merge_pages_without dt key results : forall fin,
  tzs !! key = None ->
  (m_pages dt results fin).2 =
    (m_pages dt (map (page_without key) results) fin).2.
Proof.
  induction results as [|day_ rest IH]; intros fin Hz; [reflexivity|].
  change (map (page_without key) (day_ :: rest))
    with (page_without key day_ :: map (page_without key) rest).
  rewrite !merge_pages_cons.
  pose proof (merge_page_without dt key day_ fin Hz) as H.
  destruct (m_page dt day_ fin) as [day' r].
  destruct (m_page dt (page_without key day_) fin) as [day'' r'].
  cbn [snd] in H. subst r'.
  destruct r as [fin1|e]; [|reflexivity].
  specialize (IH fin1 Hz).
  destruct (m_pages dt rest fin1) as [rest' r].
  destruct (m_pages dt _ fin1) as [rest'' r'].
  exact IH.
Qed.

Lemma fin_keys_known_step dt key value fin value' fin' :
  m_area dt key value fin = (value', Ok fin') ->
  fin_keys_known fin -> fin_keys_known fin'.
Proof.
  intros H Hk. apply merge_area_Ok_inv in H.
  destruct H as [(_ & _ & ->) | (zone & utc & vals & Hz & _ & _ & _ & _ & ->)];
    [exact Hk|].
  intros k a Hin. cbn [default] in Hin.
  apply In_od_set in Hin. destruct Hin as [[-> _] | Hin].
  - rewrite Hz. eauto.
  - eapply Hk; eauto.
Qed.

Lemma join_keys_known results dt results' fin :
  join results dt = (results', Ok fin) -> fin_keys_known fin.
Proof.
  intros H. unfold join_result_for_correct_time in H.
  eapply (merge_pages_invariant dt fin_keys_known) in H; eauto.
  - intros; eapply fin_keys_known_step; eauto.
  - intros k a [].
Qed.

(** C6. An area that the registry does not know is skipped: with or
    without it in the pages the merge ends the same way, with the same
    exception or the same [fin], and [fin] has no entry for it. *)
Theorem unknown_area_is_skipped key results dt :
  tzs !! key = None ->
  (join results dt).2 = (join (map (page_without key) results) dt).2 /\
  forall fa, (join results dt).2 = Ok (Some fa) -> od_get key fa = None.
Proof.
  intros Hz. split.
  - apply merge_pages_without. exact Hz.
  - intros fa H.
    destruct (join results dt) as [results' r] eqn:Hj. cbn [snd] in H.
    subst r. apply join_keys_known in Hj.
    destruct (od_get key fa) as [a|] eqn:Hg; [|reflexivity].
    apply od_get_In in Hg. destruct (Hj key a Hg) as [z Hzz]. congruence.
Qed.

(** *** The pages after the call *)

Lemma mutated_entry_known key zone value :
  tzs !! key = Some zone -> mutated_entry (key, value) = (key, mutated value).
Proof. intros H. unfold mutated_entry. cbn [fst snd]. rewrite H. reflexivity. Qed.

Lemma mutated_entry_unknown key value :
  tzs !! key = None -> mutated_entry (key, value) = (key, value).
Proof. intros H. unfold mutated_entry. cbn [fst snd]. rewrite H. reflexivity. Qed.

Lemma merge_areas_state dt items : forall fin items' r,
  m_areas dt items fin = (items', r) ->
  match r with
  | Ok _ => items' = map mutated_entry items
  | Raise _ =>
      exists before key value after,
        items = before ++ (key, value) :: after /\
        is_Some (tzs !! key) /\
        items' = map mutated_entry before ++ (key, mutated value) :: after
  end.
Proof.
  induction items as [|[key value] rest IH]; intros fin items' r.
  - intros [= <- <-]. reflexivity.
  - rewrite merge_areas_cons.
    destruct (m_area dt key value fin) as [value' [fin1|e]] eqn:Hs.
    + destruct (m_areas dt rest fin1) as [rest' r1] eqn:Hr.
      intros [= <- <-]. apply IH in Hr.
      assert (He : mutated_entry (key, value) = (key, value')).
      { apply merge_area_Ok_inv in Hs.
        destruct Hs as [(Hu & -> & _) |
                        (zone & utc & vals & Hz & _ & _ & -> & _)].
        - apply mutated_entry_unknown. exact Hu.
        - eapply mutated_entry_known. exact Hz. }
      destruct r1 as [fin2|e].
      * subst rest'. cbn [map]. rewrite He. reflexivity.
      * destruct Hr as (before & k & v & after & -> & Hk & ->).
        exists ((key, value) :: before), k, v, after.
        cbn [map]. rewrite He. auto.
    + intros [= <- <-]. apply merge_area_Raise_inv in Hs.
      destruct Hs as (zone & Hz & -> & _).
      exists [], key, value, rest. rewrite Hz. eauto.
Qed.

Lemma merge_page_state dt day_ fin day' r :
  m_page dt day_ fin = (day', r) ->
  match r with
  | Ok _ => day' = mutated_page day_
  | Raise _ =>
      exists before key value after,
        page_areas day_ = Some (before ++ (key, value) :: after) /\
        is_Some (tzs !! key) /\
        day' = {| page_header := page_header day_;
                  page_areas := Some (map mutated_entry before ++
                                      (key, mutated value) :: after) |}
  end.
Proof.
  unfold merge_page, mutated_page.
  destruct (page_areas day_) as [items|] eqn:Hp.
  - destruct (m_areas dt items fin) as [items' r'] eqn:Hr.
    intros [= <- <-]. apply merge_areas_state in Hr.
    destruct r' as [fin'|e].
    + subst items'. reflexivity.
    + destruct Hr as (before & key & value & after & -> & Hk & ->).
      exists before, key, value, after. auto.
  - intros [= <- <-]. destruct day_ as [h a]. cbn in *. subst a.
    reflexivity.
Qed.

Lemma merge_pages_state dt results : forall fin results' r,
  m_pages dt results fin = (results', r) ->
  match r with
  | Ok _ => results' = map mutated_page results
  | Raise _ =>
      exists done day_ todo before key value after,
        results = done ++ day_ :: todo /\
        page_areas day_ = Some (before ++ (key, value) :: after) /\
        is_Some (tzs !! key) /\
        results' =
          map mutated_page done ++
          {| page_header := page_header day_;
             page_areas := Some (map mutated_entry before ++
                                 (key, mutated value) :: after) |} :: todo
  end.
Proof.
  induction results as [|day_ rest IH]; intros fin results' r.
  - intros [= <- <-]. reflexivity.
  - rewrite merge_pages_cons.
    destruct (m_page dt day_ fin) as [day' [fin1|e]] eqn:Hs;
      apply merge_page_state in Hs.
    + destruct (m_pages dt rest fin1) as [rest' r1] eqn:Hr.
      intros [= <- <-]. apply IH in Hr. subst day'.
      destruct r1 as [fin2|e].
      * subst rest'. reflexivity.
      * destruct Hr as (done & d & todo & before & key & value & after &
                        -> & Hp & Hk & ->).
        exists (day_ :: done), d, todo, before, key, value, after. auto.
    + intros [= <- <-].
      destruct Hs as (before & key & value & after & Hp & Hk & ->).
      exists [], day_, rest, before, key, value, after. auto.
Qed.

(** C10. The pages handed to the merge are changed by it.  After a
    successful call every area of the registry, in every page, has been
    stamped by [add_junk] and has lost its ["values"] key.  After a call
    that raises (an invalid value in particular) the same holds for every
    page before the one at fault and, within that page, for every area up
    to and including the one at fault; what comes after is untouched and
    nothing is put back. *)
Theorem merge_mutates_its_input results dt :
  match (join results dt).2 with
  | Ok _ => (join results dt).1 = map mutated_page results
  | Raise _ =>
      exists done day_ todo before key value after,
        results = done ++ day_ :: todo /\
        page_areas day_ = Some (before ++ (key, value) :: after) /\
        is_Some (tzs !! key) /\
        (join results dt).1 =
          map mutated_page done ++
          {| page_header := page_header day_;
             page_areas := Some (map mutated_entry before ++
                                 (key, mutated value) :: after) |} :: todo
  end.
Proof.
  unfold join_result_for_correct_time.
  destruct (m_pages dt results None) as [results' r] eqn:H.
  apply merge_pages_state in H. exact H.
Qed.

(** *** A reference argument that is not a datetime *)

Lemma merge_area_not_a_datetime dt key zone value vals fin :
  not_a_datetime dt ->
  tzs !! key = Some zone ->
  values value = Some vals ->
  m_area dt key value fin = (mutated value, Raise AttributeError).
Proof.
  intros Hdt Hz Hv. unfold merge_area. rewrite Hz. cbn [values meta].
  rewrite Hv. destruct dt; [reflexivity | destruct Hdt | reflexivity
                           | reflexivity].
Qed.

Lemma join_without_datetime_is_empty dt results results' fin :
  not_a_datetime dt ->
  join results dt = (results', Ok fin) -> fin = None.
Proof.
  intros Hdt H. unfold join_result_for_correct_time in H.
  eapply (merge_pages_invariant dt (fun f => f = None)) in H; eauto.
  intros key value f value' f' Hs ->. apply merge_area_Ok_inv in Hs.
  destruct Hs as [(_ & _ & ->) | (zone & utc & vals & _ & -> & _)];
    [reflexivity | destruct Hdt].
Qed.

Lemma merge_areas_not_a_datetime dt items : forall fin,
  not_a_datetime dt ->
  (forall key a, In (key, a) items ->
     is_Some (tzs !! key) -> is_Some (values a)) ->
  (m_areas dt items fin).2 =
    if existsb (fun item => in_registry item.1) items
    then Raise AttributeError else Ok fin.
Proof.
  induction items as [|[key value] rest IH]; intros fin Hdt Hfresh;
    [reflexivity|].
  rewrite merge_areas_cons.
  assert (Hrest : forall k a, In (k, a) rest ->
            is_Some (tzs !! k) -> is_Some (values a))
    by (intros; eapply Hfresh; [right|]; eauto).
  change (existsb (fun item => in_registry item.1) ((key, value) :: rest))
    with (in_registry key || existsb (fun item => in_registry item.1) rest).
  unfold in_registry at 1.
  destruct (tzs !! key) as [zone|] eqn:Hz.
  - destruct (Hfresh key value) as [vals Hv]; [left; reflexivity|eauto|].
    rewrite (merge_area_not_a_datetime dt key zone value vals) by assumption.
    reflexivity.
  - rewrite merge_area_unknown by assumption.
    specialize (IH fin Hdt Hrest).
    destruct (m_areas dt rest fin) as [rest' r]. exact IH.
Qed.

Lemma merge_pages_not_a_datetime dt results : forall fin,
  not_a_datetime dt ->
  Forall page_fresh results ->
  (m_pages dt results fin).2 =
    if existsb page_has_known_area results
    then Raise AttributeError else Ok fin.
Proof.
  induction results as [|day_ rest IH]; intros fin Hdt Hfresh;
    [reflexivity|].
  rewrite merge_pages_cons.
  apply Forall_cons in Hfresh. destruct Hfresh as [Hd Hrest].
  change (existsb page_has_known_area (day_ :: rest))
    with (page_has_known_area day_ || existsb page_has_known_area rest).
  assert (H : (m_page dt day_ fin).2 =
              if page_has_known_area day_
              then Raise AttributeError else Ok fin).
  { unfold merge_page, page_has_known_area.
    destruct (page_areas day_) as [items|] eqn:Hp; [|reflexivity].
    pose proof (merge_areas_not_a_datetime dt items fin Hdt) as H.
    destruct (m_areas dt items fin) as [items' r].
    apply H. intros key a Hin. apply Hd. rewrite Hp. exact Hin. }
  destruct (m_page dt day_ fin) as [day' r]. cbn [snd] in H. subst r.
  destruct (page_has_known_area day_); [reflexivity|].
  specialize (IH fin Hdt Hrest).
  destruct (m_pages dt rest fin) as [rest' r]. exact IH.
Qed.

(** Called without [end_date], [fetch] hands [None] to the merge, which
    fails on [utc.astimezone] at the first area of the registry. *)
Lemma fetch_without_end_date p1 p2 p3 :
  page_fresh p1 -> page_fresh p2 -> page_fresh p3 ->
  existsb page_has_known_area [p1; p2; p3] = true ->
  (fetch utcoffset junk_keys junk_value p1 p2 p3 DtNone).2
    = Raise AttributeError.
Proof.
  intros F1 F2 F3 Hk. unfold fetch, join_result_for_correct_time.
  rewrite merge_pages_not_a_datetime; [rewrite Hk; reflexivity|exact I|].
  repeat constructor; assumption.
Qed.

End MergeFacts.


(** ** The merge on the pages of 2021 *)

Section Examples.

Import Y2021.

Local Abbreviation sod := (start_of_day utcoffset).
Local Abbreviation eod := (end_of_day utcoffset).
Local Abbreviation astz := (astimezone utcoffset).
Local Abbreviation kept := (kept_values utcoffset).

Local Ltac by_computation := vm_compute; reflexivity.

Local Ltac keys_differ :=
  unfold page_wf; apply (bool_decide_unpack _); by_computation.

Local Ltac has_values :=
  let key := fresh "key" in
  let a := fresh "a" in
  let Hin := fresh "Hin" in
  intros key a Hin _; cbn in Hin;
  repeat (destruct Hin as [Hin | Hin]; [inversion Hin; subst; eexists;
                                         reflexivity |]);
  destruct Hin.

Lemma output_start_within_local_day_witness :
  join [win1; win2; win3] (DtDatetime noon)
    = (map after [win1; win2; win3], Ok (Some win_fin)) /\
  od_get "FI" win_fin = Some win_fin_FI /\
  values win_fin_FI
    = Some [hour (-1) (eur 3950); hour 0 (eur 4050); hour 12 (eur 4550)] /\
  In (hour (-1) (eur 3950))
    [hour (-1) (eur 3950); hour 0 (eur 4050); hour 12 (eur 4550)] /\
  exists zone utc,
    tzs !! "FI" = Some zone /\ DtDatetime noon = DtDatetime utc /\
    sod zone utc <= astz zone (val_start (hour (-1) (eur 3950)))
      <= eod zone utc /\
    sod zone utc = DAY * (astz zone utc / DAY) /\
    eod zone utc = sod zone utc + (DAY - 1) /\
    astz zone (val_start (hour (-1) (eur 3950))) / DAY
      = astz zone utc / DAY.
Proof.
  assert (H1 : join [win1; win2; win3] (DtDatetime noon)
               = (map after [win1; win2; win3], Ok (Some win_fin)))
    by by_computation.
  assert (H2 : od_get "FI" win_fin = Some win_fin_FI) by reflexivity.
  assert (H3 : values win_fin_FI
               = Some [hour (-1) (eur 3950); hour 0 (eur 4050);
                       hour 12 (eur 4550)]) by reflexivity.
  assert (H4 : In (hour (-1) (eur 3950))
                 [hour (-1) (eur 3950); hour 0 (eur 4050);
                  hour 12 (eur 4550)]) by (left; reflexivity).
  exact (conj H1 (conj H2 (conj H3 (conj H4
    (output_start_within_local_day utcoffset junk_keys junk_value
       _ _ _ _ _ _ _ _ H1 H2 H3 H4))))).
Defined.

(** An hour of the last Sunday of October that starts and ends at 02:00 in
    Stockholm and has no price stops the merge: C5, as stated, fails. *)
Lemma equal_local_start_end_without_price_raises :
  in_range utcoffset "Europe/Stockholm"
    (sod "Europe/Stockholm" october_noon)
    (eod "Europe/Stockholm" october_noon)
    (october_hour 2 None) = true /\
  astz "Europe/Stockholm" (val_start (october_hour 2 None))
    = astz "Europe/Stockholm" (val_end (october_hour 2 None)) /\
  (join [october_gap] (DtDatetime october_noon)).2
    = Raise InvalidValueException.
Proof. repeat split; by_computation. Qed.

Lemma output_excludes_equal_local_start_end_witness :
  (join [october_page] (DtDatetime october_noon)
     = (map after [october_page], Ok (Some october_fin)) /\
   od_get "SE1" october_fin = Some october_fin_SE1 /\
   values october_fin_SE1
     = Some [october_hour 1 (eur 5000); october_hour 3 (eur 5200)] /\
   In (october_hour 3 (eur 5200))
     [october_hour 1 (eur 5000); october_hour 3 (eur 5200)] /\
   exists zone,
     tzs !! "SE1" = Some zone /\
     astz zone (val_start (october_hour 3 (eur 5200)))
       <> astz zone (val_end (october_hour 3 (eur 5200)))) /\
  (page_areas october_page = Some ([] ++ [("SE1", october_SE1)]) /\
   tzs !! "SE1" = Some "Europe/Stockholm" /\
   values october_SE1
     = Some ([october_hour 1 (eur 5000)] ++
             october_hour 2 (eur 5100) :: [october_hour 3 (eur 5200)]) /\
   in_INVALID_VALUES (val_value (october_hour 2 (eur 5100))) = false /\
   astz "Europe/Stockholm" (val_start (october_hour 2 (eur 5100)))
     = astz "Europe/Stockholm" (val_end (october_hour 2 (eur 5100))) /\
   (join ([] ++ [october_page]) (DtDatetime october_noon)).2
     = (join
          ([] ++
           [page_with_areas october_page
              ([] ++
               [("SE1",
                 area_with_values october_SE1
                   ([october_hour 1 (eur 5000)] ++
                    [october_hour 3 (eur 5200)]))])])
          (DtDatetime october_noon)).2) /\
  (in_range utcoffset "Europe/Stockholm"
     (sod "Europe/Stockholm" october_noon)
     (eod "Europe/Stockholm" october_noon)
     (october_hour 2 None) = true /\
   in_INVALID_VALUES (val_value (october_hour 2 None)) = true /\
   select_values utcoffset "Europe/Stockholm"
     (sod "Europe/Stockholm" october_noon)
     (eod "Europe/Stockholm" october_noon)
     [october_hour 2 None; october_hour 3 (eur 5200)]
     [october_hour 1 (eur 5000)]
     = Raise InvalidValueException).
Proof.
  pose proof (output_excludes_equal_local_start_end
                utcoffset junk_keys junk_value) as (T1 & T2 & T3).
  assert (H1 : join [october_page] (DtDatetime october_noon)
               = (map after [october_page], Ok (Some october_fin)))
    by by_computation.
  assert (H2 : od_get "SE1" october_fin = Some october_fin_SE1)
    by reflexivity.
  assert (H3 : values october_fin_SE1
               = Some [october_hour 1 (eur 5000); october_hour 3 (eur 5200)])
    by reflexivity.
  assert (H4 : In (october_hour 3 (eur 5200))
                 [october_hour 1 (eur 5000); october_hour 3 (eur 5200)])
    by (right; left; reflexivity).
  assert (G1 : page_areas october_page
               = Some ([] ++ [("SE1", october_SE1)])) by reflexivity.
  assert (G2 : tzs !! "SE1" = Some "Europe/Stockholm") by by_computation.
  assert (G3 : values october_SE1
               = Some ([october_hour 1 (eur 5000)] ++
                       october_hour 2 (eur 5100)
                       :: [october_hour 3 (eur 5200)])) by reflexivity.
  assert (G4 : in_INVALID_VALUES (val_value (october_hour 2 (eur 5100)))
               = false) by reflexivity.
  assert (G5 : astz "Europe/Stockholm"
                 (val_start (october_hour 2 (eur 5100)))
               = astz "Europe/Stockholm"
                   (val_end (october_hour 2 (eur 5100))))
    by by_computation.
  assert (K1 : in_range utcoffset "Europe/Stockholm"
                 (sod "Europe/Stockholm" october_noon)
                 (eod "Europe/Stockholm" october_noon)
                 (october_hour 2 None) = true) by by_computation.
  assert (K2 : in_INVALID_VALUES (val_value (october_hour 2 None)) = true)
    by reflexivity.
  exact (conj
    (conj H1 (conj H2 (conj H3 (conj H4 (T1 _ _ _ _ _ _ _ _ H1 H2 H3 H4)))))
    (conj
      (conj G1 (conj G2 (conj G3 (conj G4 (conj G5
        (T2 (DtDatetime october_noon) [] october_page [] [] "SE1"
            "Europe/Stockholm" october_SE1 [] [october_hour 1 (eur 5000)]
            (october_hour 2 (eur 5100)) [october_hour 3 (eur 5200)]
            G1 G2 G3 G4 G5))))))
      (conj K1 (conj K2
        (T3 "Europe/Stockholm" (sod "Europe/Stockholm" october_noon)
            (eod "Europe/Stockholm" october_noon) (october_hour 2 None)
            [october_hour 3 (eur 5200)] [october_hour 1 (eur 5000)]
            K1 K2))))).
Defined.

(** The hour that the October page lists between the two kept ones starts
    and ends at the same local reading, and is in range. *)
Example october_hour_two_is_the_anomaly :
  astz "Europe/Stockholm" (val_start (october_hour 2 (eur 5100)))
    = astz "Europe/Stockholm" (val_end (october_hour 2 (eur 5100))) /\
  in_range utcoffset "Europe/Stockholm"
    (sod "Europe/Stockholm" october_noon)
    (eod "Europe/Stockholm" october_noon)
    (october_hour 2 (eur 5100)) = true.
Proof. split; by_computation. Qed.

(** C2, as stated, fails: the hours 0 and 1, which two of the three pages
    list, are each twice in the output. *)
Lemma overlapping_pages_duplicate_hours :
  (fetch overlap1 overlap2 overlap3 (DtDatetime noon)).2
    = Ok (Some overlap_fin) /\
  fin_values (Some overlap_fin) "SE1"
    = [hour 0 (eur 4100); hour 0 (eur 4100);
       hour 1 (eur 4200); hour 1 (eur 4200)] /\
  ~ NoDup (fin_values (Some overlap_fin) "SE1").
Proof.
  split; [by_computation|]. split; [reflexivity|].
  intros H. apply (bool_decide_pack _) in H. vm_compute in H. exact H.
Qed.

Lemma overlapping_pages_keep_every_occurrence_witness :
  page_wf overlap1 /\ page_wf overlap2 /\ page_wf overlap3 /\
  tzs !! "SE1" = Some "Europe/Stockholm" /\
  fetch overlap1 overlap2 overlap3 (DtDatetime noon)
    = (map after [overlap1; overlap2; overlap3], Ok (Some overlap_fin)) /\
  (fin_values (Some overlap_fin) "SE1" =
     kept "Europe/Stockholm" noon (values_of (page_area overlap1 "SE1")) ++
     kept "Europe/Stockholm" noon (values_of (page_area overlap2 "SE1")) ++
     kept "Europe/Stockholm" noon (values_of (page_area overlap3 "SE1")) /\
   forall val,
     count_occ price_eq_dec (fin_values (Some overlap_fin) "SE1") val =
       (count_occ price_eq_dec
          (kept "Europe/Stockholm" noon
             (values_of (page_area overlap1 "SE1"))) val +
        count_occ price_eq_dec
          (kept "Europe/Stockholm" noon
             (values_of (page_area overlap2 "SE1"))) val +
        count_occ price_eq_dec
          (kept "Europe/Stockholm" noon
             (values_of (page_area overlap3 "SE1"))) val)%nat).
Proof.
  assert (W1 : page_wf overlap1) by keys_differ.
  assert (W2 : page_wf overlap2) by keys_differ.
  assert (W3 : page_wf overlap3) by keys_differ.
  assert (Hz : tzs !! "SE1" = Some "Europe/Stockholm") by by_computation.
  assert (H : fetch overlap1 overlap2 overlap3 (DtDatetime noon)
              = (map after [overlap1; overlap2; overlap3],
                 Ok (Some overlap_fin))) by by_computation.
  exact (conj W1 (conj W2 (conj W3 (conj Hz (conj H
    (overlapping_pages_keep_every_occurrence utcoffset junk_keys junk_value
       _ _ _ _ _ _ _ _ W1 W2 W3 Hz H)))))).
Defined.

Lemma invalid_value_in_range_aborts_merge_witness :
  Forall page_fresh [win1; bad2; win3] /\
  In bad2 [win1; bad2; win3] /\
  In ("SE1", bad2_SE1) (default [] (page_areas bad2)) /\
  tzs !! "SE1" = Some "Europe/Stockholm" /\
  values bad2_SE1
    = Some [hour 0 (eur 4000); hour 5 None; hour 6 (eur 4400)] /\
  In (hour 5 None) [hour 0 (eur 4000); hour 5 None; hour 6 (eur 4400)] /\
  in_INVALID_VALUES (val_value (hour 5 None)) = true /\
  sod "Europe/Stockholm" noon
    <= astz "Europe/Stockholm" (val_start (hour 5 None))
    <= eod "Europe/Stockholm" noon /\
  (join [win1; bad2; win3] (DtDatetime noon)).2
    = Raise InvalidValueException /\
  backoff_retries InvalidValueException = false.
Proof.
  assert (F : Forall page_fresh [win1; bad2; win3])
    by (repeat constructor; has_values).
  assert (D : In bad2 [win1; bad2; win3]) by (right; left; reflexivity).
  assert (A : In ("SE1", bad2_SE1) (default [] (page_areas bad2)))
    by (left; reflexivity).
  assert (Hz : tzs !! "SE1" = Some "Europe/Stockholm") by by_computation.
  assert (V : values bad2_SE1
              = Some [hour 0 (eur 4000); hour 5 None; hour 6 (eur 4400)])
    by reflexivity.
  assert (R : In (hour 5 None)
                [hour 0 (eur 4000); hour 5 None; hour 6 (eur 4400)])
    by (right; left; reflexivity).
  assert (N : in_INVALID_VALUES (val_value (hour 5 None)) = true)
    by reflexivity.
  assert (B : sod "Europe/Stockholm" noon
              <= astz "Europe/Stockholm" (val_start (hour 5 None))
              <= eod "Europe/Stockholm" noon)
    by (split; apply Z.leb_le; by_computation).
  exact (conj F (conj D (conj A (conj Hz (conj V (conj R (conj N (conj B
    (invalid_value_in_range_aborts_merge utcoffset junk_keys junk_value
       _ _ _ _ _ _ _ _ F D A Hz V R N B))))))))).
Defined.

(** C4, as stated, fails: the first page gives ["Median"] the value 10.00,
    the output has the 30.00 of the third page. *)
Lemma first_page_metadata_is_overwritten :
  (fetch med1 med2 med3 (DtDatetime noon)).2 = Ok (Some med_fin) /\
  meta med1_SE1 !! "Median" = Some (eur 1000) /\
  fin_meta (Some med_fin) "SE1" !! "Median" = Some (eur 3000) /\
  fin_meta (Some med_fin) "SE1" !! "Median" <> meta med1_SE1 !! "Median".
Proof.
  split; [by_computation|]. split; [by_computation|].
  split; [by_computation|].
  assert (E1 : fin_meta (Some med_fin) "SE1" !! "Median" = Some (eur 3000))
    by by_computation.
  assert (E2 : meta med1_SE1 !! "Median" = Some (eur 1000))
    by by_computation.
  rewrite E1, E2. discriminate.
Qed.

Lemma later_pages_overwrite_metadata_witness :
  page_wf med1 /\ page_wf med2 /\ page_wf med3 /\
  tzs !! "SE1" = Some "Europe/Stockholm" /\
  page_area med1 "SE1" = Some med1_SE1 /\
  page_area med2 "SE1" = Some med2_SE1 /\
  page_area med3 "SE1" = Some med3_SE1 /\
  fetch med1 med2 med3 (DtDatetime noon)
    = (map after [med1; med2; med3], Ok (Some med_fin)) /\
  ((forall m,
      fin_meta (Some med_fin) "SE1" !! m =
        if bool_decide (m ∈ junk_keys) then Some junk_value
        else match meta med3_SE1 !! m with
             | Some v => Some v
             | None =>
                 match meta med2_SE1 !! m with
                 | Some v => Some v
                 | None => meta med1_SE1 !! m
                 end
             end) /\
   fin_values (Some med_fin) "SE1" =
     kept "Europe/Stockholm" noon (default [] (values med1_SE1)) ++
     kept "Europe/Stockholm" noon (default [] (values med2_SE1)) ++
     kept "Europe/Stockholm" noon (default [] (values med3_SE1))).
Proof.
  assert (W1 : page_wf med1) by keys_differ.
  assert (W2 : page_wf med2) by keys_differ.
  assert (W3 : page_wf med3) by keys_differ.
  assert (Hz : tzs !! "SE1" = Some "Europe/Stockholm") by by_computation.
  assert (A1 : page_area med1 "SE1" = Some med1_SE1) by reflexivity.
  assert (A2 : page_area med2 "SE1" = Some med2_SE1) by reflexivity.
  assert (A3 : page_area med3 "SE1" = Some med3_SE1) by reflexivity.
  assert (H : fetch med1 med2 med3 (DtDatetime noon)
              = (map after [med1; med2; med3], Ok (Some med_fin)))
    by by_computation.
  exact (conj W1 (conj W2 (conj W3 (conj Hz (conj A1 (conj A2 (conj A3
    (conj H
    (later_pages_overwrite_metadata utcoffset junk_keys junk_value
       _ _ _ _ _ _ _ _ _ _ _ W1 W2 W3 Hz A1 A2 A3 H))))))))).
Defined.

Lemma unknown_area_is_skipped_witness :
  tzs !! "PL" = None /\
  (join [win1; pl2; win3] (DtDatetime noon)).2
    = (join (map (page_without "PL") [win1; pl2; win3])
         (DtDatetime noon)).2 /\
  forall fa,
    (join [win1; pl2; win3] (DtDatetime noon)).2 = Ok (Some fa) ->
    od_get "PL" fa = None.
Proof.
  assert (Hz : tzs !! "PL" = None) by by_computation.
  exact (conj Hz
    (unknown_area_is_skipped utcoffset junk_keys junk_value
       "PL" [win1; pl2; win3] (DtDatetime noon) Hz)).
Defined.

(** The page with the unlisted area merges, although that area's list has
    a missing price in range: the output has the Swedish area only. *)
Example unlisted_area_leaves_no_trace :
  exists fa,
    (join [pl2] (DtDatetime noon)).2 = Ok (Some fa) /\
    od_keys fa = ["SE1"] /\
    (join [pl2] (DtDatetime noon)).2
      = (join [page_without "PL" pl2] (DtDatetime noon)).2.
Proof.
  eexists. split; [by_computation|]. split; by_computation.
Qed.

(** An abort in the second page: the first page and the area at fault have
    lost their lists, the rest of the second page and the third page are
    as they were. *)
Example abort_leaves_pages_changed :
  join [win1; bad2; win3] (DtDatetime noon)
    = ([after win1;
        mk_page_of_items bad2
          [("SE1", mutated junk_keys junk_value bad2_SE1);
           ("FI", mk_area [] [hour 0 (eur 4050)])];
        win3],
       Raise InvalidValueException).
Proof. by_computation. Qed.

(** C9. Called without [end_date] on a window whose pages list areas of
    the registry, [fetch] raises [AttributeError] instead of merging for
    tomorrow. *)
Theorem fetch_without_end_date_raises :
  (fetch win1 win2 win3 DtNone).2 = Raise AttributeError /\
  (hourly utcoffset junk_keys junk_value win1 win2 win3 DtNone).2
    = Raise AttributeError.
Proof. split; by_computation. Qed.

End Examples.

(** ** The numeric normalizer *)

Lemma py_float_raises_ValueError s e : py_float s = Raise e -> e = ValueError.
Proof.
  unfold py_float.
  destruct (_PyUnicode_TransformDecimalAndSpaceToASCII
              (list_ascii_of_string s)) as [text|]; [|congruence].
  destruct (remove_underscores None (strip text)) as [l|]; [|congruence].
  destruct (split_sign l) as [neg body].
  destruct (parse_number neg body); [discriminate|].
  destruct (parse_inf_or_nan neg body); [discriminate|congruence].
Qed.

(** C7, as stated, fails: a period is not a thousands separator for the code,
    so ["1.234,56"] becomes ["1.234.56"], which [float] rejects, and the
    result is positive infinity. *)
Lemma conv_to_float_period_thousands_is_infinite :
  str_replace " " "" (str_replace "," "." "1.234,56") = "1.234.56" /\
  py_float "1.234.56" = Raise ValueError /\
  _conv_to_float "1.234,56" = Ok pos_inf /\
  _conv_to_float "1.234,56" <> Ok (FNear false 123456 (-2)).
Proof.
  split; [reflexivity|]. split; [vm_compute; reflexivity|].
  split; [vm_compute; reflexivity|].
  vm_compute. discriminate.
Qed.

(** C7 (amended). With a space as thousands separator the normalizer gives
    1234.56, the double nearest to 123456e-2; with a period it gives positive
    infinity; ["abc"] gives positive infinity. *)
Theorem conv_to_float_test_values :
  _conv_to_float "1 234,56" = Ok (FNear false 123456 (-2)) /\
  _conv_to_float "1.234,56" = Ok pos_inf /\
  _conv_to_float "abc" = Ok pos_inf.
Proof. repeat split; vm_compute; reflexivity. Qed.

(** C8. The normalizer never raises on a string: it returns what [float]
    reads in the cleaned string, and positive infinity whenever [float]
    rejects it. *)
Theorem conv_to_float_never_raises (s : string) :
  _conv_to_float s =
    Ok match py_float (str_replace " " "" (str_replace "," "." s)) with
       | Ok f => f
       | Raise _ => pos_inf
       end.
Proof.
  unfold _conv_to_float, try_except.
  destruct (py_float (str_replace " " "" (str_replace "," "." s)))
    as [f|e] eqn:H; [reflexivity|].
  apply py_float_raises_ValueError in H. subst e. reflexivity.
Qed.

(** ** More about the merge *)

Section MergeMore.

Variable utcoffset : string -> Z -> Z.
Variable junk_keys : list string.
Variable junk_value : pyval.

Local Abbreviation astz := (astimezone utcoffset).
Local Abbreviation is_bad := (is_bad utcoffset).
Local Abbreviation is_kept := (is_kept utcoffset).
Local Abbreviation in_range := (in_range utcoffset).
Local Abbreviation sod := (start_of_day utcoffset).
Local Abbreviation eod := (end_of_day utcoffset).
Local Abbreviation kept := (kept_values utcoffset).
Local Abbreviation area_is_bad := (area_is_bad utcoffset).
Local Abbreviation page_is_bad := (page_is_bad utcoffset).
Local Abbreviation mutated := (mutated junk_keys junk_value).
Local Abbreviation mutated_page := (mutated_page junk_keys junk_value).
Local Abbreviation m_area := (merge_area utcoffset junk_keys junk_value).
Local Abbreviation m_areas := (merge_areas utcoffset junk_keys junk_value).
Local Abbreviation m_page := (merge_page utcoffset junk_keys junk_value).
Local Abbreviation m_pages := (merge_pages utcoffset junk_keys junk_value).
Local Abbreviation join :=
  (join_result_for_correct_time utcoffset junk_keys junk_value).

(** *** Pages without an area of the registry *)

Lemma in_registry_false key : in_registry key = false -> tzs !! key = None.
Proof. unfold in_registry. destruct (tzs !! key); [discriminate|reflexivity]. Qed.

Lemma in_registry_true key : in_registry key = true -> is_Some (tzs !! key).
Proof. unfold in_registry. destruct (tzs !! key); [eauto|discriminate]. Qed.

Lemma merge_areas_no_known dt items : forall fin,
  existsb (fun item => in_registry item.1) items = false ->
  m_areas dt items fin = (items, Ok fin).
Proof.
  induction items as [|[key value] rest IH]; intros fin H; [reflexivity|].
  change (existsb (fun item => in_registry item.1) ((key, value) :: rest))
    with (in_registry key || existsb (fun item => in_registry item.1) rest)
    in H.
  apply orb_false_elim in H. destruct H as [Hk Hrest].
  rewrite merge_areas_cons, merge_area_unknown by (apply in_registry_false, Hk).
  rewrite IH by assumption. reflexivity.
Qed.

Lemma merge_page_no_known dt day_ fin :
  page_has_known_area day_ = false -> m_page dt day_ fin = (day_, Ok fin).
Proof.
  unfold page_has_known_area, merge_page. destruct day_ as [h [items|]];
    cbn [page_areas page_header default]; intros H; [|reflexivity].
  rewrite merge_areas_no_known by assumption. reflexivity.
Qed.

Lemma merge_pages_no_known dt results : forall fin,
  existsb page_has_known_area results = false ->
  m_pages dt results fin = (results, Ok fin).
Proof.
  induction results as [|day_ rest IH]; intros fin H; [reflexivity|].
  change (existsb page_has_known_area (day_ :: rest))
    with (page_has_known_area day_ || existsb page_has_known_area rest) in H.
  apply orb_false_elim in H. destruct H as [Hd Hrest].
  rewrite merge_pages_cons, merge_page_no_known by assumption.
  rewrite IH by assumption. reflexivity.
Qed.

(** X2. When no page lists an area of the registry the merge returns the
    empty [fin], without the key ["areas"], and leaves the pages as they
    were, whatever the reference argument is. *)
Theorem pages_without_registry_area_merge_to_nothing results dt :
  existsb page_has_known_area results = false ->
  join results dt = (results, Ok None).
Proof. intros H. apply merge_pages_no_known. exact H. Qed.

(** *** Merging the same pages a second time *)

Lemma merge_area_stale dt key zone value fin :
  tzs !! key = Some zone ->
  values value = None ->
  m_area dt key value fin = (mutated value, Raise KeyError).
Proof.
  intros Hz Hv. unfold merge_area. rewrite Hz. cbn [values meta].
  rewrite Hv. reflexivity.
Qed.

Lemma merge_area_leaves_no_values dt key zone value fin :
  tzs !! key = Some zone -> (m_area dt key value fin).1 = mutated value.
Proof.
  intros Hz. destruct (m_area dt key value fin) as [value' [fin'|e]] eqn:H.
  - apply merge_area_Ok_inv in H.
    destruct H as [(Hu & _) | (z & utc & vals & _ & _ & _ & -> & _)];
      [congruence | reflexivity].
  - apply merge_area_Raise_inv in H. destruct H as (z & _ & -> & _).
    reflexivity.
Qed.

Lemma remerge_areas dt dt' items : forall fin fin',
  (m_areas dt' (m_areas dt items fin).1 fin').2 =
    if existsb (fun item => in_registry item.1) items
    then Raise KeyError else Ok fin'.
Proof.
  induction items as [|[key value] rest IH]; intros fin fin'; [reflexivity|].
  change (existsb (fun item => in_registry item.1) ((key, value) :: rest))
    with (in_registry key || existsb (fun item => in_registry item.1) rest).
  rewrite merge_areas_cons. unfold in_registry at 1.
  destruct (tzs !! key) as [zone|] eqn:Hz.
  - pose proof (merge_area_leaves_no_values dt key zone value fin Hz) as Hm.
    destruct (m_area dt key value fin) as [value' [fin1|e]];
      cbn [fst] in Hm; subst value'.
    + destruct (m_areas dt rest fin1) as [rest' r]. cbn [fst orb].
      rewrite merge_areas_cons, (merge_area_stale dt' key zone) by auto.
      reflexivity.
    + cbn [fst orb].
      rewrite merge_areas_cons, (merge_area_stale dt' key zone) by auto.
      reflexivity.
  - rewrite merge_area_unknown by assumption.
    specialize (IH fin fin').
    destruct (m_areas dt rest fin) as [rest' r]. cbn [fst orb] in *.
    rewrite merge_areas_cons, merge_area_unknown by assumption.
    destruct (m_areas dt' rest' fin') as [rest'' r']. exact IH.
Qed.

Lemma remerge_page dt dt' day_ fin fin' :
  (m_page dt' (m_page dt day_ fin).1 fin').2 =
    if page_has_known_area day_ then Raise KeyError else Ok fin'.
Proof.
  unfold page_has_known_area, merge_page.
  destruct (page_areas day_) as [items|] eqn:Hp; cbn [default].
  - pose proof (remerge_areas dt dt' items fin fin') as H.
    destruct (m_areas dt items fin) as [items' r]. cbn [fst page_areas] in *.
    destruct (m_areas dt' items' fin') as [items'' r']. exact H.
  - cbn [fst]. rewrite Hp. reflexivity.
Qed.

Lemma remerge_pages dt dt' results : forall fin fin',
  (m_pages dt' (m_pages dt results fin).1 fin').2 =
    if existsb page_has_known_area results then Raise KeyError else Ok fin'.
Proof.
  induction results as [|day_ rest IH]; intros fin fin'; [reflexivity|].
  change (existsb page_has_known_area (day_ :: rest))
    with (page_has_known_area day_ || existsb page_has_known_area rest).
  rewrite merge_pages_cons.
  destruct (page_has_known_area day_) eqn:Hk.
  - pose proof (remerge_page dt dt' day_ fin fin') as H. rewrite Hk in H.
    destruct (m_page dt day_ fin) as [day' [fin1|e]]; cbn [fst] in H.
    + destruct (m_pages dt rest fin1) as [rest' r]. cbn [fst orb].
      rewrite merge_pages_cons.
      destruct (m_page dt' day' fin') as [day'' r']. cbn [snd] in H.
      subst r'. reflexivity.
    + cbn [fst orb]. rewrite merge_pages_cons.
      destruct (m_page dt' day' fin') as [day'' r']. cbn [snd] in H.
      subst r'. reflexivity.
  - rewrite merge_page_no_known by assumption.
    specialize (IH fin fin').
    destruct (m_pages dt rest fin) as [rest' r]. cbn [fst orb] in *.
    rewrite merge_pages_cons, merge_page_no_known by assumption.
    destruct (m_pages dt' rest' fin') as [rest'' r']. exact IH.
Qed.

(** X3. The pages cannot be merged twice: once a call has run on pages that
    list an area of the registry, whether it returned or raised, a second
    call on the same pages raises [KeyError] at the first such area, whose
    ["values"] the first call has popped.  [KeyError] is one of the
    exceptions after which the decorator of [fetch] tries again. *)
Theorem merging_the_same_pages_again_raises_KeyError results dt dt' :
  existsb page_has_known_area results = true ->
  (join (join results dt).1 dt').2 = Raise KeyError /\
  backoff_retries KeyError = true.
Proof.
  intros H. split; [|reflexivity].
  unfold join_result_for_correct_time.
  rewrite remerge_pages, H. reflexivity.
Qed.

(** *** The areas of the result *)

Lemma od_keys_od_set {V} (k : string) (v : V) (d : odict V) :
  od_keys (od_set k v d) = add_key (od_keys d) k.
Proof.
  unfold add_key, od_keys.
  induction d as [|[k0 v0] d IH]; [reflexivity|].
  cbn [od_set map fst existsb].
  destruct (String.eqb k k0) eqn:E; cbn [orb map fst].
  - apply String.eqb_eq in E. subst k0. reflexivity.
  - rewrite IH. destruct (existsb (String.eqb k) (map fst d)); reflexivity.
Qed.

Lemma add_key_In acc k x : In x (add_key acc k) <-> In x acc \/ x = k.
Proof.
  unfold add_key. destruct (existsb (String.eqb k) acc) eqn:E.
  - apply existsb_exists in E. destruct E as (y & Hy & E).
    apply String.eqb_eq in E. subst y. split; [auto|].
    intros [H| ->]; assumption.
  - rewrite in_app_iff. cbn [In]. intuition congruence.
Qed.

Lemma add_key_NoDup acc k : NoDup acc -> NoDup (add_key acc k).
Proof.
  intros H. unfold add_key. destruct (existsb (String.eqb k) acc) eqn:E;
    [exact H|].
  apply NoDup_app. split; [exact H|]. split; [|apply NoDup_singleton].
  intros x Hx Hk. apply list_elem_of_In in Hk. destruct Hk as [<-|[]].
  assert (existsb (String.eqb k) acc = true); [|congruence].
  apply existsb_exists. exists k. split; [apply list_elem_of_In, Hx|].
  apply String.eqb_refl.
Qed.

Lemma fold_add_key_In keys : forall acc x,
  In x (fold_left add_key keys acc) <-> In x acc \/ In x keys.
Proof.
  induction keys as [|k keys IH]; intros acc x; cbn [fold_left In].
  - tauto.
  - rewrite IH, add_key_In. intuition congruence.
Qed.

Lemma fold_add_key_NoDup keys : forall acc,
  NoDup acc -> NoDup (fold_left add_key keys acc).
Proof.
  induction keys as [|k keys IH]; intros acc H; cbn [fold_left];
    auto using add_key_NoDup.
Qed.

Lemma merge_area_keys dt key value fin value' fin' :
  m_area dt key value fin = (value', Ok fin') ->
  od_keys (default [] fin') =
    fold_left add_key (List.filter in_registry [key]) (od_keys (default [] fin)).
Proof.
  intros H. apply merge_area_Ok_inv in H. cbn [List.filter].
  unfold in_registry.
  destruct H as [(Hu & _ & ->) | (zone & utc & vals & Hz & _ & _ & _ & _ & ->)].
  - rewrite Hu. reflexivity.
  - rewrite Hz. cbn [default fold_left]. apply od_keys_od_set.
Qed.

Lemma merge_areas_keys dt items : forall fin items' fin',
  m_areas dt items fin = (items', Ok fin') ->
  od_keys (default [] fin') =
    fold_left add_key (List.filter in_registry (od_keys items))
      (od_keys (default [] fin)).
Proof.
  induction items as [|[key value] rest IH]; intros fin items' fin'.
  - intros [= <- <-]. reflexivity.
  - rewrite merge_areas_cons.
    destruct (m_area dt key value fin) as [value' [fin1|e]] eqn:Hs;
      [|discriminate].
    destruct (m_areas dt rest fin1) as [rest' r] eqn:Hr.
    intros [= <- ->]. apply IH in Hr. apply merge_area_keys in Hs.
    rewrite Hr, Hs.
    change (od_keys ((key, value) :: rest)) with ([key] ++ od_keys rest).
    rewrite List.filter_app, fold_left_app. reflexivity.
Qed.

Lemma merge_pages_keys dt results : forall fin results' fin',
  m_pages dt results fin = (results', Ok fin') ->
  od_keys (default [] fin') =
    fold_left add_key (known_keys results) (od_keys (default [] fin)).
Proof.
  induction results as [|day_ rest IH]; intros fin results' fin'.
  - intros [= <- <-]. reflexivity.
  - intros H. apply merge_pages_Ok_cons in H.
    destruct H as (day' & fin1 & rest' & Hd & Hr & _).
    apply IH in Hr. rewrite Hr.
    unfold known_keys. cbn [map concat].
    rewrite List.filter_app, fold_left_app. f_equal.
    unfold merge_page in Hd. unfold page_keys.
    destruct (page_areas day_) as [items|]; cbn [default].
    + destruct (m_areas dt items fin) as [items' r] eqn:Ha.
      injection Hd as _ ->. eapply merge_areas_keys; eauto.
    + injection Hd as _ <-. reflexivity.
Qed.

Lemma fin_has_values_step dt key value fin value' fin' :
  m_area dt key value fin = (value', Ok fin') ->
  fin_has_values fin -> fin_has_values fin'.
Proof.
  intros H Hk. apply merge_area_Ok_inv in H.
  destruct H as [(_ & _ & ->) | (zone & utc & vals & _ & _ & _ & _ & _ & ->)];
    [exact Hk|].
  intros k a Hin. cbn [default] in Hin.
  apply In_od_set in Hin. destruct Hin as [[_ ->] | Hin].
  - cbn [values]. eauto.
  - eapply Hk; eauto.
Qed.

(** X4. The result has one entry for each area of the registry that some
    page lists and no other entry, no area twice, and every entry has a
    ["values"] list, if only an empty one. *)
Theorem result_has_the_registry_areas_of_the_pages
    results dt results' fin :
  join results dt = (results', Ok fin) ->
  NoDup (od_keys (default [] fin)) /\
  (forall key,
     In key (od_keys (default [] fin)) <->
     in_registry key = true /\
     exists day_, In day_ results /\ In key (page_keys day_)) /\
  (forall key a, In (key, a) (default [] fin) -> is_Some (values a)).
Proof.
  intros H. unfold join_result_for_correct_time in H.
  pose proof (merge_pages_keys _ _ _ _ _ H) as Hk. cbn [default] in Hk.
  split; [|split].
  - rewrite Hk. apply fold_add_key_NoDup. constructor.
  - intros key. rewrite Hk, fold_add_key_In. unfold known_keys.
    rewrite filter_In, in_concat. cbn [od_keys map In]. split.
    + intros [[]|[(l & Hl & Hin) Hr]]. split; [exact Hr|].
      apply in_map_iff in Hl. destruct Hl as (day_ & <- & Hd). eauto.
    + intros (Hr & day_ & Hd & Hin). right. split; [|exact Hr].
      exists (page_keys day_). split; [|exact Hin].
      apply in_map. exact Hd.
  - eapply (merge_pages_invariant utcoffset junk_keys junk_value dt
              fin_has_values) in H; eauto.
    + intros; eapply fin_has_values_step; eauto.
    + intros k a [].
Qed.

(** X5. The areas of the result are in the order in which the pages first
    list them. *)
Theorem result_areas_are_in_first_seen_order results dt results' fin :
  join results dt = (results', Ok fin) ->
  od_keys (default [] fin) = first_seen (known_keys results).
Proof.
  intros H. unfold join_result_for_correct_time in H.
  apply merge_pages_keys in H. exact H.
Qed.

(** *** The values lists of the result, for any number of pages *)

Lemma filter_concat {A} (f : A -> bool) (ls : list (list A)) :
  List.filter f (concat ls) = concat (map (List.filter f) ls).
Proof.
  induction ls as [|l ls IH]; [reflexivity|].
  cbn [concat map]. rewrite List.filter_app, IH. reflexivity.
Qed.

Lemma filter_is_sublist {A} (f : A -> bool) (l : list A) :
  sublist (List.filter f l) l.
Proof.
  induction l as [|x l IH]; cbn [List.filter]; [constructor|].
  destruct (f x); constructor; exact IH.
Qed.

Lemma sublist_In {A} (k l : list A) (y : A) :
  sublist k l -> In y k -> In y l.
Proof.
  induction 1 as [|x k l Hs IH|x k l Hs IH]; cbn [In]; tauto.
Qed.

Lemma sublist_keeps_order {A} (R : A -> A -> Prop) (k l : list A) :
  sublist k l -> StronglySorted R l -> StronglySorted R k.
Proof.
  induction 1 as [|x k l Hs IH|x k l Hs IH]; intros Hl.
  - constructor.
  - apply StronglySorted_inv in Hl. destruct Hl as [Hl Hx].
    constructor; [auto|].
    rewrite List.Forall_forall in *. intros y Hy. apply Hx.
    eapply sublist_In; eauto.
  - apply StronglySorted_inv in Hl. destruct Hl as [Hl _]. auto.
Qed.

Lemma merge_pages_acc utc k zone results : forall fin results' fin',
  Forall page_wf results ->
  tzs !! k = Some zone ->
  m_pages (DtDatetime utc) results fin = (results', Ok fin') ->
  fin_values fin' k =
    fin_values fin k ++
    concat (map (fun day_ => kept zone utc (values_of (page_area day_ k)))
              results).
Proof.
  induction results as [|day_ rest IH]; intros fin results' fin' Hwf Hz.
  - intros [= <- <-]. cbn [map concat]. rewrite app_nil_r. reflexivity.
  - intros H. apply merge_pages_Ok_cons in H.
    destruct H as (day' & fin1 & rest' & Hd & Hr & _).
    apply Forall_cons in Hwf. destruct Hwf as [Wd Wr].
    destruct (merge_page_acc _ _ _ _ _ _ _ _ _ _ Wd Hz Hd) as [Hv _].
    rewrite (IH _ _ _ Wr Hz Hr), Hv. cbn [map concat].
    rewrite <- app_assoc. reflexivity.
Qed.

Lemma join_values utc key zone results results' fin :
  Forall page_wf results ->
  tzs !! key = Some zone ->
  join results (DtDatetime utc) = (results', Ok fin) ->
  fin_values fin key = kept zone utc (all_values key results).
Proof.
  intros Hwf Hz H. unfold join_result_for_correct_time in H.
  rewrite (merge_pages_acc _ _ _ _ _ _ _ Hwf Hz H).
  unfold kept_values, all_values. rewrite filter_concat, map_map.
  reflexivity.
Qed.

Lemma In_all_values key results val :
  In val (all_values key results) <->
  exists day_ a vals,
    In day_ results /\ page_area day_ key = Some a /\
    values a = Some vals /\ In val vals.
Proof.
  unfold all_values. rewrite in_concat. split.
  - intros (l & Hl & Hin). apply in_map_iff in Hl.
    destruct Hl as (day_ & <- & Hd).
    destruct (page_area day_ key) as [a|] eqn:Ha; [|destruct Hin].
    cbn [values_of] in Hin.
    destruct (values a) as [vals|] eqn:Hv; [|destruct Hin].
    exists day_, a, vals. auto.
  - intros (day_ & a & vals & Hd & Ha & Hv & Hin).
    exists (values_of (page_area day_ key)). split.
    + apply in_map_iff. eauto.
    + rewrite Ha. cbn [values_of]. rewrite Hv. exact Hin.
Qed.

(** A record in the result makes the area known and the reference a
    datetime. *)
Lemma fin_values_nonempty results dt results' fin key val :
  join results dt = (results', Ok fin) ->
  In val (fin_values fin key) ->
  exists zone utc, tzs !! key = Some zone /\ dt = DtDatetime utc.
Proof.
  intros H Hin. apply join_fin_ok in H. apply fin_values_In in Hin.
  destruct Hin as (a & vs & H1 & H2 & H3).
  destruct (H key a vs val H1 H2 H3) as (zone & utc & Hz & Hdt & _). eauto.
Qed.

(** X7. No qualifying record is lost, whatever the number of pages: a record
    that a page lists for an area of the registry, whose local start lies in
    the local day of the reference and differs from its local end, is in the
    result of a merge that returns. *)
Theorem qualifying_record_is_in_the_result
    utc results results' fin day_ key zone a vals val :
  Forall page_wf results ->
  join results (DtDatetime utc) = (results', Ok fin) ->
  In day_ results ->
  page_area day_ key = Some a ->
  values a = Some vals ->
  In val vals ->
  tzs !! key = Some zone ->
  sod zone utc <= astz zone (val_start val) <= eod zone utc ->
  astz zone (val_start val) <> astz zone (val_end val) ->
  In val (fin_values fin key).
Proof.
  intros Hwf H Hd Ha Hv Hin Hz Hr Hne.
  rewrite (join_values _ _ _ _ _ _ Hwf Hz H).
  unfold kept_values. apply filter_In. split.
  - apply In_all_values. eauto 10.
  - unfold is_kept, in_range. apply andb_true_intro. split.
    + apply andb_true_intro. split; apply Z.leb_le; lia.
    + apply negb_true_iff, Z.eqb_neq. exact Hne.
Qed.

(** X8. The merge invents no record and moves none to another area: every
    record of an area of the result is in the list that some page holds for
    that same area. *)
Theorem result_records_come_from_the_pages
    results dt results' fin key val :
  Forall page_wf results ->
  join results dt = (results', Ok fin) ->
  In val (fin_values fin key) ->
  exists day_ a vals,
    In day_ results /\ page_area day_ key = Some a /\
    values a = Some vals /\ In val vals.
Proof.
  intros Hwf H Hin.
  destruct (fin_values_nonempty _ _ _ _ _ _ H Hin) as (zone & utc & Hz & ->).
  rewrite (join_values _ _ _ _ _ _ Hwf Hz H) in Hin.
  unfold kept_values in Hin. apply filter_In in Hin.
  apply In_all_values. tauto.
Qed.

(** X9. The merge keeps the order of the input: the list of an area in the
    result is a sublist of the lists that the pages hold for that area, taken
    end to end in the order of the pages.  Hence, when those lists are in
    order for some relation, chronological order for one, so is the
    result. *)
Theorem result_keeps_the_order_of_the_pages
    results dt results' fin key :
  Forall page_wf results ->
  join results dt = (results', Ok fin) ->
  sublist (fin_values fin key) (all_values key results) /\
  forall R : price -> price -> Prop,
    StronglySorted R (all_values key results) ->
    StronglySorted R (fin_values fin key).
Proof.
  intros Hwf H.
  assert (Hs : sublist (fin_values fin key) (all_values key results)).
  { destruct (fin_values fin key) as [|val vs] eqn:E; [apply sublist_nil_l|].
    assert (Hin : In val (fin_values fin key)) by (rewrite E; left; reflexivity).
    destruct (fin_values_nonempty _ _ _ _ _ _ H Hin)
      as (zone & utc & Hz & ->).
    rewrite <- E, (join_values _ _ _ _ _ _ Hwf Hz H).
    apply filter_is_sublist. }
  split; [exact Hs|].
  intros R HR. eapply sublist_keeps_order; eauto.
Qed.

(** *** When the merge returns and when it fails *)

Lemma page_is_bad_found utc results :
  existsb (page_is_bad utc) results = true <->
  exists day_ key zone a vals val,
    In day_ results /\
    In (key, a) (default [] (page_areas day_)) /\
    tzs !! key = Some zone /\
    values a = Some vals /\
    In val vals /\
    in_INVALID_VALUES (val_value val) = true /\
    sod zone utc <= astz zone (val_start val) <= eod zone utc.
Proof.
  rewrite existsb_exists. split.
  - intros (day_ & Hd & Hb). unfold page_is_bad in Hb.
    apply existsb_exists in Hb. destruct Hb as ([key a] & Ha & Hb).
    rewrite area_is_bad_eq in Hb.
    destruct (tzs !! key) as [zone|] eqn:Hz; [|discriminate].
    destruct (values a) as [vals|] eqn:Hv; [|discriminate].
    apply existsb_exists in Hb. destruct Hb as (val & Hin & Hb).
    unfold is_bad, in_range in Hb.
    apply andb_prop in Hb. destruct Hb as [Hr Hi].
    apply andb_prop in Hr. destruct Hr as [H1 H2].
    apply Z.leb_le in H1, H2.
    exists day_, key, zone, a, vals, val. auto 10.
  - intros (day_ & key & zone & a & vals & val &
            Hd & Ha & Hz & Hv & Hin & Hi & Hr).
    exists day_. split; [exact Hd|].
    unfold page_is_bad. apply existsb_exists.
    exists (key, a). split; [exact Ha|].
    rewrite area_is_bad_eq, Hz, Hv. apply existsb_exists.
    exists val. split; [exact Hin|].
    unfold is_bad, in_range. rewrite Hi, andb_true_r.
    apply andb_true_intro. split; apply Z.leb_le; lia.
Qed.

(** X6. An invalid value aborts the merge only inside the local day: when
    the pages are as the parser made them, the reference is a datetime, and
    every record with an invalid value, in an area of the registry, starts
    outside the local day of the reference in that area's zone, the merge
    returns a result. *)
Theorem invalid_values_outside_the_day_are_passed_over utc results :
  Forall page_fresh results ->
  (forall day_ key zone a vals val,
     In day_ results ->
     In (key, a) (default [] (page_areas day_)) ->
     tzs !! key = Some zone ->
     values a = Some vals ->
     In val vals ->
     in_INVALID_VALUES (val_value val) = true ->
     ~ sod zone utc <= astz zone (val_start val) <= eod zone utc) ->
  exists fin, (join results (DtDatetime utc)).2 = Ok fin.
Proof.
  intros Hfresh Hout. unfold join_result_for_correct_time.
  pose proof (merge_pages_fresh utcoffset junk_keys junk_value
                utc results None Hfresh) as H.
  destruct (existsb (page_is_bad utc) results) eqn:Hb; [|exact H].
  apply page_is_bad_found in Hb.
  destruct Hb as (day_ & key & zone & a & vals & val &
                  Hd & Ha & Hz & Hv & Hin & Hi & Hr).
  destruct (Hout day_ key zone a vals val); assumption.
Qed.

(** X10. The reference must be a datetime: with a date, a string or nothing
    for it, and pages as the parser made them that list an area of the
    registry, the merge raises [AttributeError], which the decorator of
    [fetch] does not retry. *)
Theorem reference_must_be_a_datetime results dt :
  not_a_datetime dt ->
  Forall page_fresh results ->
  existsb page_has_known_area results = true ->
  (join results dt).2 = Raise AttributeError /\
  backoff_retries AttributeError = false.
Proof.
  intros Hdt Hfresh Hk. split; [|reflexivity].
  unfold join_result_for_correct_time.
  rewrite merge_pages_not_a_datetime by assumption.
  rewrite Hk. reflexivity.
Qed.

(** X13. The normalizer and the merge together: a price string that [float]
    rejects becomes, through [_conv_to_float], a value that aborts the merge
    with [InvalidValueException] when its record starts in the local day of
    the reference. *)
Theorem unreadable_price_in_range_aborts_merge
    utc results day_ key zone a vals val s f :
  Forall page_fresh results ->
  In day_ results ->
  In (key, a) (default [] (page_areas day_)) ->
  tzs !! key = Some zone ->
  values a = Some vals ->
  In val vals ->
  (exists e,
     py_float (str_replace " " "" (str_replace "," "." s)) = Raise e) ->
  _conv_to_float s = Ok f ->
  val_value val = Some f ->
  sod zone utc <= astz zone (val_start val) <= eod zone utc ->
  (join results (DtDatetime utc)).2 = Raise InvalidValueException.
Proof.
  intros Hfresh Hd Ha Hz Hv Hin [e He] Hc Hval Hr.
  assert (Hi : in_INVALID_VALUES (val_value val) = true).
  { rewrite Hval. unfold _conv_to_float in Hc. rewrite He in Hc.
    apply py_float_raises_ValueError in He. subst e.
    cbn [try_except exn_subclass] in Hc. injection Hc as <-. reflexivity. }
  unfold join_result_for_correct_time.
  pose proof (merge_pages_fresh utcoffset junk_keys junk_value
                utc results None Hfresh) as H.
  assert (Hb : existsb (page_is_bad utc) results = true).
  { apply page_is_bad_found. exists day_, key, zone, a, vals, val.
    repeat split; solve [assumption | lia]. }
  rewrite Hb in H. exact H.
Qed.

(** *** The reference counts through its local day only *)

Lemma replace_time_same_day w w' x :
  w / DAY = w' / DAY -> replace_time w x = replace_time w' x.
Proof.
  unfold replace_time, DAY. intros H. Z.div_mod_to_equations. lia.
Qed.

Lemma merge_area_same_day utc utc' key value fin :
  (forall zone, tzs !! key = Some zone ->
     astz zone utc / DAY = astz zone utc' / DAY) ->
  m_area (DtDatetime utc) key value fin
    = m_area (DtDatetime utc') key value fin.
Proof.
  intros H. destruct (tzs !! key) as [zone|] eqn:Hz.
  - specialize (H zone eq_refl).
    destruct (values value) as [vals|] eqn:Hv.
    + rewrite !(merge_area_known _ _ _ zone _ vals) by assumption.
      unfold start_of_day, end_of_day.
      rewrite !(replace_time_same_day _ _ _ H). reflexivity.
    + rewrite !(merge_area_stale _ _ zone) by assumption. reflexivity.
  - rewrite !merge_area_unknown by assumption. reflexivity.
Qed.

Lemma merge_areas_same_day utc utc' items : forall fin,
  (forall key zone, tzs !! key = Some zone ->
     astz zone utc / DAY = astz zone utc' / DAY) ->
  m_areas (DtDatetime utc) items fin = m_areas (DtDatetime utc') items fin.
Proof.
  induction items as [|[key value] rest IH]; intros fin H; [reflexivity|].
  rewrite !merge_areas_cons, (merge_area_same_day utc utc') by eauto.
  destruct (m_area (DtDatetime utc') key value fin) as [value' [fin1|e]];
    [|reflexivity].
  rewrite IH by assumption. reflexivity.
Qed.

Lemma merge_pages_same_day utc utc' results : forall fin,
  (forall key zone, tzs !! key = Some zone ->
     astz zone utc / DAY = astz zone utc' / DAY) ->
  m_pages (DtDatetime utc) results fin = m_pages (DtDatetime utc') results fin.
Proof.
  induction results as [|day_ rest IH]; intros fin H; [reflexivity|].
  rewrite !merge_pages_cons.
  assert (E : m_page (DtDatetime utc) day_ fin
              = m_page (DtDatetime utc') day_ fin).
  { unfold merge_page. destruct (page_areas day_) as [items|]; [|reflexivity].
    rewrite (merge_areas_same_day utc utc') by assumption. reflexivity. }
  rewrite E.
  destruct (m_page (DtDatetime utc') day_ fin) as [day' [fin1|e]];
    [|reflexivity].
  rewrite IH by assumption. reflexivity.
Qed.

(** X14. Only the local day of the reference counts: two reference instants
    that fall on the same calendar day in the zone of every area of the
    registry give the same pages and the same result or exception. *)
Theorem references_of_one_local_day_merge_alike utc utc' results :
  (forall key zone, tzs !! key = Some zone ->
     astz zone utc / DAY = astz zone utc' / DAY) ->
  join results (DtDatetime utc) = join results (DtDatetime utc').
Proof. intros H. apply merge_pages_same_day. exact H. Qed.

End MergeMore.

(** ** More about the numeric normalizer *)

Lemma replace_by_nothing old c s :
  str_replace old "" (String c s) =
    if Ascii.eqb c old then str_replace old "" s
    else String c (str_replace old "" s).
Proof. reflexivity. Qed.

Lemma replace_by_one old new c s :
  str_replace old (String new EmptyString) (String c s) =
    String (if Ascii.eqb c old then new else c)
      (str_replace old (String new EmptyString) s).
Proof. cbn [str_replace]. destruct (Ascii.eqb c old); reflexivity. Qed.

Lemma replace_comma_twice s :
  str_replace "," "." (str_replace "," "." s) = str_replace "," "." s.
Proof.
  induction s as [|c s IH]; [reflexivity|].
  rewrite !replace_by_one, IH.
  destruct (Ascii.eqb c ",") eqn:E; [reflexivity|]. rewrite E. reflexivity.
Qed.

Lemma clean_without_spaces s :
  str_replace " " "" (str_replace "," "." (str_replace " " "" s)) =
  str_replace " " "" (str_replace "," "." s).
Proof.
  induction s as [|c s IH]; [reflexivity|].
  rewrite replace_by_nothing, (replace_by_one "," "." c), replace_by_nothing.
  destruct (Ascii.eqb c " ") eqn:E1.
  - apply Ascii.eqb_eq in E1. subst c. cbn. exact IH.
  - rewrite replace_by_one, replace_by_nothing, IH.
    destruct (Ascii.eqb c ",") eqn:E2; [reflexivity|]. rewrite E1.
    reflexivity.
Qed.

(** X11. Spaces are dropped wherever they stand and a comma counts as a
    period: removing the spaces of a string, or writing its commas as
    periods, before the call does not change what the normalizer returns. *)
Theorem spaces_and_commas_do_not_matter (s : string) :
  _conv_to_float (str_replace " " "" s) = _conv_to_float s /\
  _conv_to_float (str_replace "," "." s) = _conv_to_float s.
Proof.
  unfold _conv_to_float. split.
  - rewrite clean_without_spaces. reflexivity.
  - rewrite replace_comma_twice. reflexivity.
Qed.

(** *** Numbers written with digits and a decimal comma *)

Lemma digit_is_plain c :
  is_digit c = true ->
  Ascii.eqb c "," = false /\ Ascii.eqb c " " = false /\
  is_space c = false /\ is_underscore c = false /\
  Ascii.eqb c "-" = false /\ Ascii.eqb c "+" = false.
Proof.
  destruct c as [[] [] [] [] [] [] [] []]; vm_compute; intros H;
    try discriminate H; repeat split; reflexivity.
Qed.

Lemma digit_is_ascii c : is_digit c = true -> (N_of_ascii c <? 128)%N = true.
Proof.
  destruct c as [[] [] [] [] [] [] [] []]; vm_compute; intros H;
    try discriminate H; reflexivity.
Qed.

Lemma ascii_text_is_kept l :
  Forall (fun c => (N_of_ascii c <? 128)%N = true) l ->
  _PyUnicode_TransformDecimalAndSpaceToASCII l = Some l.
Proof.
  intros H. unfold _PyUnicode_TransformDecimalAndSpaceToASCII.
  replace (PyUnicode_IS_ASCII l) with true; [reflexivity|].
  symmetry. apply forallb_forall. apply List.Forall_forall. exact H.
Qed.

Lemma clean_chars s :
  list_ascii_of_string (str_replace " " "" (str_replace "," "." s)) =
    List.filter (fun c => negb (Ascii.eqb c " "))
      (map (fun c => if Ascii.eqb c "," then "."%char else c)
         (list_ascii_of_string s)).
Proof.
  induction s as [|c s IH]; [reflexivity|].
  rewrite replace_by_one, replace_by_nothing.
  cbn [list_ascii_of_string map List.filter].
  destruct (Ascii.eqb (if Ascii.eqb c "," then "."%char else c) " ");
    cbn [negb list_ascii_of_string]; rewrite IH; reflexivity.
Qed.

Lemma clean_digits d :
  Forall (fun c => is_digit c = true) d ->
  List.filter (fun c => negb (Ascii.eqb c " "))
    (map (fun c => if Ascii.eqb c "," then "."%char else c) d) = d.
Proof.
  induction 1 as [|c d Hc Hd IH]; [reflexivity|].
  destruct (digit_is_plain c Hc) as (E1 & E2 & _).
  cbn [map List.filter]. rewrite E1, E2. cbn [negb]. rewrite IH.
  reflexivity.
Qed.

Lemma lstrip_plain l :
  Forall (fun c => is_space c = false) l -> lstrip l = l.
Proof. destruct 1 as [|c l Hc Hl]; [reflexivity|]. cbn [lstrip]. rewrite Hc. reflexivity. Qed.

Lemma strip_plain l :
  Forall (fun c => is_space c = false) l -> strip l = l.
Proof.
  intros H. unfold strip. rewrite (lstrip_plain l H).
  rewrite lstrip_plain by (apply Forall_rev; exact H).
  apply rev_involutive.
Qed.

Lemma remove_underscores_plain l : forall prev,
  Forall (fun c => is_underscore c = false) l ->
  match prev with Some p => is_underscore p = false | None => True end ->
  remove_underscores prev l = Some l.
Proof.
  induction l as [|c l IH]; intros prev Hl Hp.
  - destruct prev as [p|]; cbn [remove_underscores]; [rewrite Hp|];
      reflexivity.
  - apply Forall_cons in Hl. destruct Hl as [Hc Hl].
    cbn [remove_underscores]. rewrite Hc.
    destruct prev as [p|]; [rewrite Hp; cbn [andb]|];
      rewrite (IH (Some c)) by assumption; reflexivity.
Qed.

Lemma span_digits_app d r :
  Forall (fun c => is_digit c = true) d ->
  match r with [] => True | c :: _ => is_digit c = false end ->
  span_digits (d ++ r) = (d, r).
Proof.
  intros Hd Hr. induction Hd as [|c d Hc Hd IH].
  - destruct r as [|c r]; [reflexivity|]. cbn [app span_digits].
    rewrite Hr. reflexivity.
  - cbn [app span_digits]. rewrite Hc, IH. reflexivity.
Qed.

Lemma span_digits_all d :
  Forall (fun c => is_digit c = true) d -> span_digits d = (d, []).
Proof.
  intros H. rewrite <- (app_nil_r d) at 1. apply span_digits_app; [exact H|].
  exact I.
Qed.

Lemma parse_number_digits neg ip frac :
  Forall (fun c => is_digit c = true) ip ->
  Forall (fun c => is_digit c = true) (default [] frac) ->
  ip ++ default [] frac <> [] ->
  parse_number neg
    (ip ++ match frac with Some fp => "."%char :: fp | None => [] end) =
    Some (mk_float neg (digits_value (ip ++ default [] frac))
            (- Z.of_nat (length (default [] frac)))).
Proof.
  intros Hi Hf Hne. unfold parse_number.
  destruct frac as [fp|]; cbn [default from_option id] in *.
  - rewrite span_digits_app by (assumption || reflexivity).
    change (Ascii.eqb "." ".") with true. cbn iota.
    rewrite span_digits_all by assumption.
    destruct (ip ++ fp) as [|c l] eqn:E; [congruence|].
    cbn [parse_exponent]. rewrite Z.sub_0_l. reflexivity.
  - rewrite !app_nil_r in *. rewrite span_digits_all by exact Hi.
    rewrite app_nil_r.
    destruct ip as [|c l]; [congruence|].
    cbn [parse_exponent length Z.of_nat]. reflexivity.
Qed.

(** X12. A number written as an optional minus sign, digits, and optionally
    a comma followed by digits, with at least one digit in all, is read as
    that decimal: the digits taken as one integer, scaled by ten to the minus
    the count of digits after the comma (positive or negative infinity when
    that is beyond the doubles). *)
Theorem decimal_comma_number_reads_as_its_decimal
    (neg : bool) (ip : list ascii) (frac : option (list ascii)) :
  Forall (fun c => is_digit c = true) ip ->
  Forall (fun c => is_digit c = true) (default [] frac) ->
  ip ++ default [] frac <> [] ->
  _conv_to_float
    (string_of_list_ascii
       ((if neg then ["-"%char] else []) ++ ip ++
        match frac with Some fp => ","%char :: fp | None => [] end)) =
    Ok (mk_float neg (digits_value (ip ++ default [] frac))
          (- Z.of_nat (length (default [] frac)))).
Proof.
  intros Hi Hf Hne.
  set (sign := if neg then ["-"%char] else []).
  set (body := ip ++ match frac with
                     | Some fp => "."%char :: fp
                     | None => []
                     end).
  assert (Hclean :
    list_ascii_of_string
      (str_replace " " "" (str_replace "," "."
         (string_of_list_ascii
            (sign ++ ip ++
             match frac with Some fp => ","%char :: fp | None => [] end))))
    = sign ++ body).
  { rewrite clean_chars, list_ascii_of_string_of_list_ascii.
    rewrite !map_app, !List.filter_app. unfold body. f_equal; [|f_equal].
    - unfold sign. destruct neg; reflexivity.
    - apply clean_digits. exact Hi.
    - destruct frac as [fp|]; [|reflexivity]. cbn [map List.filter default from_option id] in *.
      change (Ascii.eqb "," ",") with true. cbn iota.
      change (Ascii.eqb "." " ") with false. cbn [negb].
      rewrite clean_digits by assumption. reflexivity. }
  assert (Hplain : Forall (fun c => is_space c = false) (sign ++ body) /\
                   Forall (fun c => is_underscore c = false) (sign ++ body) /\
                   Forall (fun c => (N_of_ascii c <? 128)%N = true)
                     (sign ++ body)).
  { assert (Hd : forall d, Forall (fun c => is_digit c = true) d ->
              Forall (fun c => is_space c = false) d /\
              Forall (fun c => is_underscore c = false) d /\
              Forall (fun c => (N_of_ascii c <? 128)%N = true) d).
    { intros d H. repeat split; eapply List.Forall_impl; try exact H;
        intros c Hc; try (apply digit_is_ascii; exact Hc);
        destruct (digit_is_plain c Hc) as (_ & _ & ? & ? & _);
        assumption. }
    destruct (Hd ip Hi) as (I1 & I2 & I3).
    destruct (Hd _ Hf) as (F1 & F2 & F3).
    unfold sign, body.
    repeat split;
      apply Forall_app; (split; [destruct neg; repeat constructor|]);
      apply Forall_app; (split; [assumption|]);
      destruct frac as [fp|]; cbn [default from_option id] in *; repeat constructor;
      assumption. }
  destruct Hplain as (Hs & Hu & Ha).
  assert (Hsplit : split_sign (sign ++ body) = (neg, body)).
  { unfold sign. destruct neg; [reflexivity|]. cbn [app].
    unfold body. destruct ip as [|c l].
    - destruct frac as [fp|]; [reflexivity|]. cbn [default from_option id app] in Hne.
      congruence.
    - apply Forall_cons in Hi. destruct Hi as [Hc _].
      destruct (digit_is_plain c Hc) as (_ & _ & _ & _ & E1 & E2).
      cbn [app split_sign]. rewrite E1, E2. reflexivity. }
  unfold _conv_to_float, py_float.
  fold sign. rewrite Hclean, (ascii_text_is_kept _ Ha), (strip_plain _ Hs).
  rewrite (remove_underscores_plain _ None Hu I), Hsplit.
  unfold body. rewrite parse_number_digits by assumption.
  reflexivity.
Qed.

(** ** The requests of [fetch] *)

Section Window.

Variable parse_dt : string -> result Z.
Variable strftime_dmy : Z -> string.

Lemma date_of_day_before t : date_of (t - DAY) = date_of t - 1.
Proof. unfold date_of, DAY. Z.div_mod_to_equations. lia. Qed.

Lemma date_of_day_after t : date_of (t + DAY) = date_of t + 1.
Proof. unfold date_of, DAY. Z.div_mod_to_equations. lia. Qed.

Lemma date_of_monotone t u : t <= u -> date_of t <= date_of u.
Proof. unfold date_of, DAY. intros H. Z.div_mod_to_equations. lia. Qed.

(** X1. The three requests of [fetch] name the day before the first reading
    of the clock, the day of the second reading and the day after the third.
    With readings that do not go back these days rise strictly; they are
    three days in a row when the readings fall on one day; and when midnight
    passes between the first and the second reading, the day of the first
    reading is asked for by none of the three. *)
Theorem fetch_asks_for_rising_days
    today currency data_type now1 now2 now3 :
  now1 <= now2 <= now3 ->
  fetch_jobs parse_dt strftime_dmy today currency data_type now1 now2 now3 =
    map (fun day => Ok {| req_page := data_type;
                          req_currency := currency;
                          req_endDate := strftime_dmy day |})
      [date_of now1 - 1; date_of now2; date_of now3 + 1] /\
  date_of now1 - 1 < date_of now2 < date_of now3 + 1 /\
  (date_of now1 = date_of now3 ->
     [date_of now1 - 1; date_of now2; date_of now3 + 1] =
     [date_of now2 - 1; date_of now2; date_of now2 + 1]) /\
  (date_of now1 < date_of now2 ->
     ~ In (date_of now1) [date_of now1 - 1; date_of now2; date_of now3 + 1]).
Proof.
  intros [H12 H23].
  pose proof (date_of_monotone _ _ H12) as M12.
  pose proof (date_of_monotone _ _ H23) as M23.
  split; [|split; [|split]].
  - unfold fetch_jobs, _fetch_json. cbn [bind map].
    rewrite date_of_day_before, date_of_day_after. reflexivity.
  - lia.
  - intros E. assert (date_of now2 = date_of now1) as -> by lia.
    rewrite <- E. reflexivity.
  - intros Hlt [E|[E|[E|[]]]]; lia.
Qed.

End Window.

(** ** Further examples on the pages of 2021 *)

Section MoreExamples.

Import Y2021.

Local Abbreviation sod := (start_of_day utcoffset).
Local Abbreviation eod := (end_of_day utcoffset).
Local Abbreviation astz := (astimezone utcoffset).

Local Ltac compute_it := vm_compute; reflexivity.

Local Ltac distinct_keys :=
  repeat constructor; unfold page_wf; apply (bool_decide_unpack _); compute_it.

Local Ltac values_present :=
  repeat constructor;
  let key := fresh "key" in
  let a := fresh "a" in
  let Hin := fresh "Hin" in
  intros key a Hin _; cbn in Hin;
  repeat (destruct Hin as [Hin | Hin]; [inversion Hin; subst; eexists;
                                         reflexivity |]);
  destruct Hin.

Lemma fetch_asks_for_rising_days_witness :
  1615809600000000 <= 1615809600000000 <= 1615809600000000 /\
  (jobs 18701 "EUR" 10 1615809600000000 1615809600000000 1615809600000000 =
     map (fun day => Ok {| req_page := 10;
                           req_currency := "EUR";
                           req_endDate := strftime_dmy day |})
       [date_of 1615809600000000 - 1; date_of 1615809600000000;
        date_of 1615809600000000 + 1] /\
   date_of 1615809600000000 - 1 < date_of 1615809600000000
     < date_of 1615809600000000 + 1 /\
   (date_of 1615809600000000 = date_of 1615809600000000 ->
      [date_of 1615809600000000 - 1; date_of 1615809600000000;
       date_of 1615809600000000 + 1] =
      [date_of 1615809600000000 - 1; date_of 1615809600000000;
       date_of 1615809600000000 + 1]) /\
   (date_of 1615809600000000 < date_of 1615809600000000 ->
      ~ In (date_of 1615809600000000)
          [date_of 1615809600000000 - 1; date_of 1615809600000000;
           date_of 1615809600000000 + 1])).
Proof.
  assert (H : 1615809600000000 <= 1615809600000000 <= 1615809600000000)
    by lia.
  exact (conj H
    (fetch_asks_for_rising_days parse_dt strftime_dmy 18701 "EUR" 10
       _ _ _ H)).
Defined.

(** The three requests made at noon of 2021-03-15, and those made when
    midnight passes between the first and the second reading of the clock:
    no request names 2021-03-15. *)
Example requests_at_noon_and_across_midnight :
  jobs 18701 "EUR" 10 1615809600000000 1615809600000000 1615809600000000 =
    [Ok (mkRequest 10 "EUR" "14-03-2021"); Ok (mkRequest 10 "EUR" "15-03-2021");
     Ok (mkRequest 10 "EUR" "16-03-2021")] /\
  jobs 18701 "EUR" 10 1615852799999999 1615852800000000 1615852800000001 =
    [Ok (mkRequest 10 "EUR" "14-03-2021"); Ok (mkRequest 10 "EUR" "16-03-2021");
     Ok (mkRequest 10 "EUR" "17-03-2021")].
Proof. split; compute_it. Qed.

Lemma pages_without_registry_area_merge_to_nothing_witness :
  existsb page_has_known_area [pl_only; no_areas] = false /\
  join [pl_only; no_areas] DtNone = ([pl_only; no_areas], Ok None).
Proof.
  assert (H : existsb page_has_known_area [pl_only; no_areas] = false)
    by compute_it.
  exact (conj H
    (pages_without_registry_area_merge_to_nothing utcoffset junk_keys
       junk_value _ DtNone H)).
Defined.

Lemma merging_the_same_pages_again_raises_KeyError_witness :
  existsb page_has_known_area [win1; win2; win3] = true /\
  (join (join [win1; win2; win3] (DtDatetime noon)).1 (DtDatetime noon)).2
    = Raise KeyError /\
  backoff_retries KeyError = true.
Proof.
  assert (H : existsb page_has_known_area [win1; win2; win3] = true)
    by compute_it.
  exact (conj H
    (merging_the_same_pages_again_raises_KeyError utcoffset junk_keys
       junk_value _ (DtDatetime noon) (DtDatetime noon) H)).
Defined.

Lemma result_has_the_registry_areas_of_the_pages_witness :
  join [win1; pl2; win3] (DtDatetime noon)
    = ((join [win1; pl2; win3] (DtDatetime noon)).1,
       Ok (Some [("SE1", {| meta := junk_meta;
                            values := Some [hour 0 (eur 4000);
                                            hour 12 (eur 4500);
                                            hour 23 (eur 4100)] |});
                 ("FI", {| meta := junk_meta;
                           values := Some [hour (-1) (eur 3950)] |})])) /\
  (NoDup ["SE1"; "FI"] /\
   (forall key,
      In key ["SE1"; "FI"] <->
      in_registry key = true /\
      exists day_, In day_ [win1; pl2; win3] /\ In key (page_keys day_)) /\
   (forall key a,
      In (key, a)
        [("SE1", {| meta := junk_meta;
                    values := Some [hour 0 (eur 4000); hour 12 (eur 4500);
                                    hour 23 (eur 4100)] |});
         ("FI", {| meta := junk_meta;
                   values := Some [hour (-1) (eur 3950)] |})] ->
      is_Some (values a))).
Proof.
  assert (H : join [win1; pl2; win3] (DtDatetime noon)
    = ((join [win1; pl2; win3] (DtDatetime noon)).1,
       Ok (Some [("SE1", {| meta := junk_meta;
                            values := Some [hour 0 (eur 4000);
                                            hour 12 (eur 4500);
                                            hour 23 (eur 4100)] |});
                 ("FI", {| meta := junk_meta;
                           values := Some [hour (-1) (eur 3950)] |})])))
    by compute_it.
  exact (conj H
    (result_has_the_registry_areas_of_the_pages utcoffset junk_keys
       junk_value _ _ _ _ H)).
Defined.

Lemma result_areas_are_in_first_seen_order_witness :
  join [pl2; win1] (DtDatetime noon)
    = ((join [pl2; win1] (DtDatetime noon)).1,
       Ok (Some [("SE1", {| meta := junk_meta;
                            values := Some [hour 0 (eur 4000);
                                            hour 12 (eur 4500);
                                            hour 23 (eur 4100)] |});
                 ("FI", {| meta := junk_meta;
                           values := Some [hour (-1) (eur 3950)] |})])) /\
  ["SE1"; "FI"] = first_seen (known_keys [pl2; win1]).
Proof.
  assert (H : join [pl2; win1] (DtDatetime noon)
    = ((join [pl2; win1] (DtDatetime noon)).1,
       Ok (Some [("SE1", {| meta := junk_meta;
                            values := Some [hour 0 (eur 4000);
                                            hour 12 (eur 4500);
                                            hour 23 (eur 4100)] |});
                 ("FI", {| meta := junk_meta;
                           values := Some [hour (-1) (eur 3950)] |})])))
    by compute_it.
  exact (conj H
    (result_areas_are_in_first_seen_order utcoffset junk_keys
       junk_value _ _ _ _ H)).
Defined.

Lemma invalid_values_outside_the_day_are_passed_over_witness :
  Forall page_fresh [late_gap] /\
  (forall day_ key zone a vals val,
     In day_ [late_gap] ->
     In (key, a) (default [] (page_areas day_)) ->
     tzs !! key = Some zone ->
     values a = Some vals ->
     In val vals ->
     in_INVALID_VALUES (val_value val) = true ->
     ~ sod zone noon <= astz zone (val_start val) <= eod zone noon) /\
  exists fin, (join [late_gap] (DtDatetime noon)).2 = Ok fin.
Proof.
  assert (F : Forall page_fresh [late_gap]) by values_present.
  assert (O : forall day_ key zone a vals val,
     In day_ [late_gap] ->
     In (key, a) (default [] (page_areas day_)) ->
     tzs !! key = Some zone ->
     values a = Some vals ->
     In val vals ->
     in_INVALID_VALUES (val_value val) = true ->
     ~ sod zone noon <= astz zone (val_start val) <= eod zone noon).
  { intros day_ key zone a vals val [<-|[]] [E|[]] Hz Hv Hin Hi.
    injection E as <- <-.
    assert (zone = "Europe/Stockholm") as ->
      by (vm_compute in Hz; congruence).
    cbn in Hv. injection Hv as <-.
    destruct Hin as [<-|[<-|[]]]; [discriminate Hi|].
    intros [_ H]. apply Z.leb_le in H. vm_compute in H. discriminate H. }
  exact (conj F (conj O
    (invalid_values_outside_the_day_are_passed_over utcoffset junk_keys
       junk_value noon [late_gap] F O))).
Defined.

Lemma qualifying_record_is_in_the_result_witness :
  Forall page_wf [win1; win2; win3] /\
  join [win1; win2; win3] (DtDatetime noon)
    = (map after [win1; win2; win3], Ok (Some win_fin)) /\
  In win2 [win1; win2; win3] /\
  page_area win2 "FI" = Some win2_FI /\
  values win2_FI
    = Some [hour 0 (eur 4050); hour 12 (eur 4550); hour 23 (eur 4150)] /\
  In (hour 12 (eur 4550))
    [hour 0 (eur 4050); hour 12 (eur 4550); hour 23 (eur 4150)] /\
  tzs !! "FI" = Some "Europe/Helsinki" /\
  sod "Europe/Helsinki" noon
    <= astz "Europe/Helsinki" (val_start (hour 12 (eur 4550)))
    <= eod "Europe/Helsinki" noon /\
  astz "Europe/Helsinki" (val_start (hour 12 (eur 4550)))
    <> astz "Europe/Helsinki" (val_end (hour 12 (eur 4550))) /\
  In (hour 12 (eur 4550)) (fin_values (Some win_fin) "FI").
Proof.
  assert (W : Forall page_wf [win1; win2; win3]) by distinct_keys.
  assert (H : join [win1; win2; win3] (DtDatetime noon)
              = (map after [win1; win2; win3], Ok (Some win_fin)))
    by compute_it.
  assert (D : In win2 [win1; win2; win3]) by (right; left; reflexivity).
  assert (A : page_area win2 "FI" = Some win2_FI) by reflexivity.
  assert (V : values win2_FI
              = Some [hour 0 (eur 4050); hour 12 (eur 4550);
                      hour 23 (eur 4150)]) by reflexivity.
  assert (R : In (hour 12 (eur 4550))
                [hour 0 (eur 4050); hour 12 (eur 4550); hour 23 (eur 4150)])
    by (right; left; reflexivity).
  assert (Hz : tzs !! "FI" = Some "Europe/Helsinki") by compute_it.
  assert (B : sod "Europe/Helsinki" noon
              <= astz "Europe/Helsinki" (val_start (hour 12 (eur 4550)))
              <= eod "Europe/Helsinki" noon)
    by (split; apply Z.leb_le; compute_it).
  assert (N : astz "Europe/Helsinki" (val_start (hour 12 (eur 4550)))
              <> astz "Europe/Helsinki" (val_end (hour 12 (eur 4550))))
    by (vm_compute; discriminate).
  exact (conj W (conj H (conj D (conj A (conj V (conj R (conj Hz (conj B
    (conj N
    (qualifying_record_is_in_the_result utcoffset junk_keys junk_value
       _ _ _ _ _ _ _ _ _ _ W H D A V R Hz B N)))))))))).
Defined.

Lemma result_records_come_from_the_pages_witness :
  Forall page_wf [win1; win2; win3] /\
  join [win1; win2; win3] (DtDatetime noon)
    = (map after [win1; win2; win3], Ok (Some win_fin)) /\
  In (hour (-1) (eur 3950)) (fin_values (Some win_fin) "FI") /\
  exists day_ a vals,
    In day_ [win1; win2; win3] /\ page_area day_ "FI" = Some a /\
    values a = Some vals /\ In (hour (-1) (eur 3950)) vals.
Proof.
  assert (W : Forall page_wf [win1; win2; win3]) by distinct_keys.
  assert (H : join [win1; win2; win3] (DtDatetime noon)
              = (map after [win1; win2; win3], Ok (Some win_fin)))
    by compute_it.
  assert (R : In (hour (-1) (eur 3950)) (fin_values (Some win_fin) "FI"))
    by (left; reflexivity).
  exact (conj W (conj H (conj R
    (result_records_come_from_the_pages utcoffset junk_keys junk_value
       _ _ _ _ _ _ W H R)))).
Defined.

Lemma result_keeps_the_order_of_the_pages_witness :
  Forall page_wf [win1; win2; win3] /\
  join [win1; win2; win3] (DtDatetime noon)
    = (map after [win1; win2; win3], Ok (Some win_fin)) /\
  (sublist (fin_values (Some win_fin) "FI")
     (all_values "FI" [win1; win2; win3]) /\
   forall R : price -> price -> Prop,
     StronglySorted R (all_values "FI" [win1; win2; win3]) ->
     StronglySorted R (fin_values (Some win_fin) "FI")).
Proof.
  assert (W : Forall page_wf [win1; win2; win3]) by distinct_keys.
  assert (H : join [win1; win2; win3] (DtDatetime noon)
              = (map after [win1; win2; win3], Ok (Some win_fin)))
    by compute_it.
  exact (conj W (conj H
    (result_keeps_the_order_of_the_pages utcoffset junk_keys junk_value
       _ _ _ _ "FI" W H))).
Defined.

Lemma reference_must_be_a_datetime_witness :
  not_a_datetime (DtDate 18701) /\
  Forall page_fresh [win1; win2; win3] /\
  existsb page_has_known_area [win1; win2; win3] = true /\
  (join [win1; win2; win3] (DtDate 18701)).2 = Raise AttributeError /\
  backoff_retries AttributeError = false.
Proof.
  assert (N : not_a_datetime (DtDate 18701)) by exact I.
  assert (F : Forall page_fresh [win1; win2; win3]) by values_present.
  assert (K : existsb page_has_known_area [win1; win2; win3] = true)
    by compute_it.
  exact (conj N (conj F (conj K
    (reference_must_be_a_datetime utcoffset junk_keys junk_value
       _ _ N F K)))).
Defined.

Lemma unreadable_price_in_range_aborts_merge_witness :
  Forall page_fresh [win1; dash; win3] /\
  In dash [win1; dash; win3] /\
  In ("SE1", dash_SE1) (default [] (page_areas dash)) /\
  tzs !! "SE1" = Some "Europe/Stockholm" /\
  values dash_SE1 = Some [hour 0 (eur 4000); hour 5 (Some pos_inf)] /\
  In (hour 5 (Some pos_inf)) [hour 0 (eur 4000); hour 5 (Some pos_inf)] /\
  (exists e,
     py_float (str_replace " " "" (str_replace "," "." "-")) = Raise e) /\
  _conv_to_float "-" = Ok pos_inf /\
  val_value (hour 5 (Some pos_inf)) = Some pos_inf /\
  sod "Europe/Stockholm" noon
    <= astz "Europe/Stockholm" (val_start (hour 5 (Some pos_inf)))
    <= eod "Europe/Stockholm" noon /\
  (join [win1; dash; win3] (DtDatetime noon)).2
    = Raise InvalidValueException.
Proof.
  assert (F : Forall page_fresh [win1; dash; win3]) by values_present.
  assert (D : In dash [win1; dash; win3]) by (right; left; reflexivity).
  assert (A : In ("SE1", dash_SE1) (default [] (page_areas dash)))
    by (left; reflexivity).
  assert (Hz : tzs !! "SE1" = Some "Europe/Stockholm") by compute_it.
  assert (V : values dash_SE1
              = Some [hour 0 (eur 4000); hour 5 (Some pos_inf)])
    by reflexivity.
  assert (R : In (hour 5 (Some pos_inf))
                [hour 0 (eur 4000); hour 5 (Some pos_inf)])
    by (right; left; reflexivity).
  assert (E : exists e,
    py_float (str_replace " " "" (str_replace "," "." "-")) = Raise e)
    by (exists ValueError; compute_it).
  assert (C : _conv_to_float "-" = Ok pos_inf) by compute_it.
  assert (L : val_value (hour 5 (Some pos_inf)) = Some pos_inf)
    by reflexivity.
  assert (B : sod "Europe/Stockholm" noon
              <= astz "Europe/Stockholm" (val_start (hour 5 (Some pos_inf)))
              <= eod "Europe/Stockholm" noon)
    by (split; apply Z.leb_le; compute_it).
  exact (conj F (conj D (conj A (conj Hz (conj V (conj R (conj E (conj C
    (conj L (conj B
    (unreadable_price_in_range_aborts_merge utcoffset junk_keys junk_value
       _ _ _ _ _ _ _ _ _ _ F D A Hz V R E C L B))))))))))).
Defined.

Lemma decimal_comma_number_reads_as_its_decimal_witness :
  Forall (fun c => is_digit c = true) (list_ascii_of_string "1234") /\
  Forall (fun c => is_digit c = true)
    (default [] (Some (list_ascii_of_string "56"))) /\
  list_ascii_of_string "1234" ++ default [] (Some (list_ascii_of_string "56"))
    <> [] /\
  _conv_to_float
    (string_of_list_ascii
       ((if true then ["-"%char] else []) ++ list_ascii_of_string "1234" ++
        match Some (list_ascii_of_string "56") with
        | Some fp => ","%char :: fp
        | None => []
        end)) =
    Ok (mk_float true
          (digits_value
             (list_ascii_of_string "1234" ++
              default [] (Some (list_ascii_of_string "56"))))
          (- Z.of_nat
               (length (default [] (Some (list_ascii_of_string "56")))))).
Proof.
  assert (I1 : Forall (fun c => is_digit c = true)
                 (list_ascii_of_string "1234"))
    by (repeat constructor).
  assert (I2 : Forall (fun c => is_digit c = true)
                 (default [] (Some (list_ascii_of_string "56"))))
    by (repeat constructor).
  assert (N : list_ascii_of_string "1234" ++
              default [] (Some (list_ascii_of_string "56")) <> [])
    by discriminate.
  exact (conj I1 (conj I2 (conj N
    (decimal_comma_number_reads_as_its_decimal true _ _ I1 I2 N)))).
Defined.

(** The same number with a space after the thousands. *)
Example minus_1234_56_with_a_space :
  _conv_to_float "-1 234,56" = Ok (FNear true 123456 (-2)).
Proof. compute_it. Qed.

Lemma references_of_one_local_day_merge_alike_witness :
  (forall key zone, tzs !! key = Some zone ->
     astz zone noon / DAY = astz zone (noon + 5 * HOUR) / DAY) /\
  join [win1; win2; win3] (DtDatetime noon)
    = join [win1; win2; win3] (DtDatetime (noon + 5 * HOUR)).
Proof.
  assert (H : forall key zone, tzs !! key = Some zone ->
     astz zone noon / DAY = astz zone (noon + 5 * HOUR) / DAY).
  { intros _ zone _. unfold astimezone, utcoffset.
    destruct (existsb (String.eqb zone) eastern); compute_it. }
  exact (conj H
    (references_of_one_local_day_merge_alike utcoffset junk_keys junk_value
       noon (noon + 5 * HOUR) [win1; win2; win3] H)).
Defined.

End MoreExamples.
